(** * Code Sync: the synchronisation engine of the collaborative snippet editor

    A shallow embedding of [src/main.jsx] (the [App] component): the React
    state of the component, the closures its handlers and effects create,
    the global debounce timer [window.saveTimer], the Firestore listener and
    the pending [setDoc] promises, followed by the properties of the
    synchronisation protocol.

    Conventions.
    - A JavaScript string is the list of its UTF-16 code units.
    - A handler is the list of the calls it makes ([Cmd]), written in the
      order of the source; [exec] gives each call its effect on the [World].
    - A closure is represented by the render it was created in (a [State]
      snapshot): what a handler reads is what that render held, what it
      writes goes to the live component state. *)

From Stdlib Require Import NArith ZArith List String Ascii Bool Lia.
From stdpp Require Import base option list gmap strings.

Import ListNotations.
Local Open Scope list_scope.

(** ** JavaScript strings and values *)

Abbreviation jsstring := (list N).

(** A source literal, as code units. *)
Definition js (s : string) : jsstring :=
  map N_of_ascii (list_ascii_of_string s).

Arguments js : simpl never.

Module JS.

(** WhiteSpace and LineTerminator code points, the ones
    [String.prototype.trim] strips. *)
Definition isWhiteSpace (c : N) : bool :=
  existsb (N.eqb c)
    [9; 10; 11; 12; 13; 32; 160; 5760; 8232; 8233; 8239; 8287; 12288; 65279]%N
  || (N.leb 8192 c && N.leb c 8202).

Fixpoint trimStart (s : jsstring) : jsstring :=
  match s with
  | c :: rest => if isWhiteSpace c then trimStart rest else s
  | [] => []
  end.

Definition trimEnd (s : jsstring) : jsstring := rev (trimStart (rev s)).

Definition trim (s : jsstring) : jsstring := trimEnd (trimStart s).

(** [s.substring(0, n)] *)
Definition substring0 (n : nat) (s : jsstring) : jsstring := firstn n s.

Inductive Value :=
| VUndefined
| VNull
| VBool (b : bool)
| VNum (n : Z)
| VStr (s : jsstring)
| VTimestamp (t : N)
| VServerTimestamp.

(** ToBoolean.  Numbers are integers here (no NaN); a timestamp and the
    [serverTimestamp()] sentinel are objects. *)
Definition truthy (v : Value) : bool :=
  match v with
  | VUndefined | VNull => false
  | VBool b => b
  | VNum n => negb (Z.eqb n 0)
  | VStr s => match s with [] => false | _ => true end
  | VTimestamp _ | VServerTimestamp => true
  end.

(** [!x] for a variable holding a string or [null]. *)
Definition falsy_str (u : option jsstring) : bool :=
  match u with
  | None => true
  | Some s => negb (truthy (VStr s))
  end.

End JS.
Export JS.

(** ** The regular expression [/^[a-z0-9-]+$/i]

    The pattern has no [u] flag, so case-insensitive matching goes through
    the non-Unicode [Canonicalize] of ECMAScript: a code unit is upper-cased
    with [toUpperCase], except that a unit outside ASCII is never mapped into
    ASCII.  [toUpperCase] is the Unicode table of the host; the development
    is parametric in it. *)

Section RegExp.

Variable toUpperCase : N -> jsstring.

Definition Canonicalize (ch : N) : N :=
  match toUpperCase ch with
  | [cu] => if N.leb 128 ch && N.ltb cu 128 then ch else cu
  | _ => ch
  end.

(** The members of a class given by its ranges. *)
Definition range (lo hi : N) : list N :=
  map N.of_nat (seq (N.to_nat lo) (S (N.to_nat hi) - N.to_nat lo)).

Definition ClassRanges (rs : list (N * N)) : list N :=
  flat_map (fun r => range (fst r) (snd r)) rs.

(** [a-z0-9-] *)
Definition room_class : list N :=
  ClassRanges [(97, 122); (48, 57); (45, 45)]%N.

(** CharacterSetMatcher with IgnoreCase: some member of the class has the
    canonical form of the input unit. *)
Definition CharacterSetMatcher (A : list N) (ch : N) : bool :=
  existsb (fun a => N.eqb (Canonicalize a) (Canonicalize ch)) A.

(** [A+$] tried at the head of [s]. *)
Fixpoint plus_to_end (A : list N) (s : jsstring) : bool :=
  match s with
  | [] => false
  | ch :: rest =>
      CharacterSetMatcher A ch
      && match rest with [] => true | _ => plus_to_end A rest end
  end.

(** [s.match(/^[a-z0-9-]+$/i)] is not [null].  [^] pins the match to
    index 0. *)
Definition room_regex_match (s : jsstring) : bool := plus_to_end room_class s.

End RegExp.

(** The ASCII part of [toUpperCase]. *)
Definition ascii_upper (c : N) : N :=
  if N.leb 97 c && N.leb c 122 then (c - 32)%N else c.

(** A host table that is the identity outside ASCII letters. *)
Definition basic_toUpperCase (c : N) : jsstring := [ascii_upper c].

(** ** The component state

    One field per [useState] of [App], with the source's names.  A value of
    this type is also what a closure created during a render sees. *)

Inductive Firestore := FirestoreDb.
Inductive Auth := FirebaseAuth.

Record State := mkState {
  db : option Firestore;
  auth : option Auth;
  userId : option jsstring;
  snippetId : jsstring;
  code : Value;
  isSaving : bool;
  status : jsstring;
  isInitialized : bool
}.

Definition default_code : jsstring :=
  js "// Start writing your collaborative code here!" ++ [10; 10]%N
  ++ js "function helloWorld() {" ++ [10]%N
  ++ js "  return " ++ [34]%N ++ js "Hello, Collaborator!" ++ [34]%N ++ js ";"
  ++ [10]%N ++ js "}".

Definition initial_state : State :=
  {| db := None; auth := None; userId := None;
     snippetId := js "welcome-snippet";
     code := VStr default_code;
     isSaving := false;
     status := js "Initializing...";
     isInitialized := false |}.

(** ** Document references and the calls a handler can make *)

Record DocRef := mkDocRef {
  ref_db : option Firestore;
  ref_path : list jsstring
}.

(** [doc(db, ...segments)].  The reference records the segments as they are
    given.  The SDK's [doc()] first joins the segments, splits the result at
    every slash, drops empty parts, and throws when the number of parts is
    odd; the reference it returns is the list of parts.  On segments that are
    not empty and hold no slash (see [plain_segment]) that list is the list
    given here, so the two agree; on other segments they differ, and the
    properties that look at the reference of a room are stated for plain
    segments. *)
Definition doc (d : option Firestore) (segments : list jsstring) : DocRef :=
  {| ref_db := d; ref_path := segments |}.

(** The closure [() => { saveToFirestore(newCode); }] handed to
    [setTimeout]: the render it was created in and the [newCode] it holds. *)
Record TimerCallback := mkCallback {
  cb_render : State;
  cb_newCode : Value
}.

Inductive Cmd :=
| setDb (d : option Firestore)
| setAuth (a : option Auth)
| setUserId (u : option jsstring)
| setSnippetId (r : jsstring)
| setCode (v : Value)
| setIsSaving (b : bool)
| setStatus (s : jsstring)
| setIsInitialized (b : bool)
| clearTimeout_saveTimer                              (* clearTimeout(window.saveTimer) *)
| setTimeout_saveTimer (cb : TimerCallback) (ms : N)  (* window.saveTimer = setTimeout(cb, ms) *)
| setDoc (ref : DocRef) (data : gmap string Value) (merge : bool) (awaiting : State)
| console_error.

Definition is_setDoc (c : Cmd) : bool :=
  match c with setDoc _ _ _ _ => true | _ => false end.

Section App.

(** The host's [toUpperCase] table and the global [__app_id]
    ([None]: undefined). *)
Variable toUpperCase : N -> jsstring.
Variable app_id_global : option jsstring.

Definition appId : jsstring :=
  match app_id_global with
  | Some a => a
  | None => js "default-collaboration-app"
  end.

Definition getSnippetDocRef (d : option Firestore) (room : jsstring) : DocRef :=
  doc d [js "artifacts"; appId; js "public"; js "data"; js "snippets"; room].

(** *** Handlers, as created by a render [r] *)

(** [saveToFirestore(content)] up to its [await]. *)
Definition saveToFirestore (r : State) (content : Value) : list Cmd :=
  let snippetRef := getSnippetDocRef (db r) (snippetId r) in
  [ setIsSaving true;
    setStatus (js "Saving changes to Firestore...");
    setDoc snippetRef
      (<["content" := content]>
         (<["lastEditedBy" := match userId r with Some u => VStr u | None => VNull end]>
            {["timestamp" := VServerTimestamp]}))
      true r ].

(** [saveToFirestore] once the promise of [setDoc] has settled:
    the rest of [try], or [catch], then [finally]. *)
Definition saveToFirestore_settled (r : State) (fulfilled : bool) : list Cmd :=
  (if fulfilled
   then [ setStatus (js "Changes saved successfully to room: " ++ snippetId r) ]
   else [ console_error; setStatus (js "Error: Failed to save changes.") ])
  ++ [ setIsSaving false ].

Definition handleSaveCode (r : State) (newCode : Value) (debounce : bool) : list Cmd :=
  if match db r with None => true | Some _ => false end || falsy_str (userId r)
  then []
  else
    setCode newCode ::
    (if debounce
     then [ clearTimeout_saveTimer;
            setTimeout_saveTimer {| cb_render := r; cb_newCode := newCode |} 1000 ]
     else saveToFirestore r newCode).

(** The timer callback. *)
Definition run_callback (cb : TimerCallback) : list Cmd :=
  saveToFirestore (cb_render cb) (cb_newCode cb).

(** [data.content] *)
Definition content_of (data : gmap string Value) : Value :=
  default VUndefined (data !! "content").

(** The [onSnapshot] callback; [None] is a snapshot with
    [exists() = false]. *)
Definition onSnapshot_next (r : State) (docSnapshot : option (gmap string Value)) : list Cmd :=
  match docSnapshot with
  | Some data =>
      if negb (isSaving r) && truthy (content_of data)
      then [ setCode (content_of data);
             setStatus (js "Real-time update received in room: " ++ snippetId r) ]
      else []
  | None =>
      handleSaveCode r (code r) false
      ++ [ setStatus (js "New collaboration room created: " ++ snippetId r) ]
  end.

Definition onSnapshot_error (r : State) : list Cmd :=
  [ console_error; setStatus (js "Error loading room " ++ snippetId r ++ js ".") ].

Definition room_id_ok (newId : jsstring) : bool :=
  truthy (VStr newId)
  && Nat.ltb (length newId) 50
  && room_regex_match toUpperCase newId.

(** [handleRoomChange(e)], with [value] for [e.target.value]. *)
Definition handleRoomChange (value : jsstring) : list Cmd :=
  let newId := trim value in
  if room_id_ok newId
  then [ setSnippetId newId ]
  else [ setStatus (js "Room ID must be alphanumeric/hyphenated and non-empty.") ].

(** The room input's [onChange]. *)
Definition roomInput_onChange (value : jsstring) : list Cmd :=
  [ setSnippetId value ].

(** The [onAuthStateChanged] callback. *)
Definition onAuthStateChanged_cb (user : option jsstring) : list Cmd :=
  match user with
  | Some uid =>
      [ setUserId (Some uid);
        setStatus (js "Authenticated as: " ++ substring0 8 uid ++ js "...");
        setIsInitialized true ]
  | None =>
      [ setUserId None; setStatus (js "Authentication failed.") ]
  end.

(** The first effect; [ok = false] when something in its [try] throws. *)
Definition init_effect (ok : bool) : list Cmd :=
  if ok
  then [ setDb (Some FirestoreDb); setAuth (Some FirebaseAuth) ]
  else [ console_error; setStatus (js "Error: Could not initialize Firebase.") ].

(** ** The world around the component

    The live component state, the host's timers and the global handle
    [window.saveTimer], the Firestore listener with the render its callback
    closed over, the [setDoc] promises still pending, and the remote store. *)

Record Timer := mkTimer {
  timer_id : nat;
  deadline : N;
  callback : TimerCallback
}.

Record Write := mkWrite {
  w_ref : DocRef;
  w_data : gmap string Value;
  w_merge : bool;
  w_awaiting : State        (* the render whose [saveToFirestore] awaits it *)
}.

Record World := mkWorld {
  react : State;
  mounted : bool;
  now : N;
  timers : list Timer;
  saveTimer : option nat;   (* window.saveTimer *)
  next_timer : nat;
  listener : option State;
  inflight : list Write;
  issued : list Write;      (* every [setDoc] call made so far, oldest first *)
  store : gmap (list jsstring) (gmap string Value)
}.

Definition initial_world : World :=
  {| react := initial_state; mounted := true; now := 0;
     timers := []; saveTimer := None; next_timer := 0;
     listener := None; inflight := []; issued := []; store := ∅ |}.

Definition with_react (s : State) (w : World) : World :=
  mkWorld s (mounted w) (now w) (timers w) (saveTimer w) (next_timer w)
          (listener w) (inflight w) (issued w) (store w).

Definition with_now (t : N) (w : World) : World :=
  mkWorld (react w) (mounted w) t (timers w) (saveTimer w) (next_timer w)
          (listener w) (inflight w) (issued w) (store w).

Definition with_timers (ts : list Timer) (w : World) : World :=
  mkWorld (react w) (mounted w) (now w) ts (saveTimer w) (next_timer w)
          (listener w) (inflight w) (issued w) (store w).

Definition with_listener (l : option State) (w : World) : World :=
  mkWorld (react w) (mounted w) (now w) (timers w) (saveTimer w) (next_timer w)
          l (inflight w) (issued w) (store w).

(** State setters are ignored once the component is unmounted. *)
Definition set_state (f : State -> State) (w : World) : World :=
  if mounted w then with_react (f (react w)) w else w.

Definition update (c : Cmd) (s : State) : State :=
  match c with
  | setDb d => mkState d (auth s) (userId s) (snippetId s) (code s) (isSaving s) (status s) (isInitialized s)
  | setAuth a => mkState (db s) a (userId s) (snippetId s) (code s) (isSaving s) (status s) (isInitialized s)
  | setUserId u => mkState (db s) (auth s) u (snippetId s) (code s) (isSaving s) (status s) (isInitialized s)
  | setSnippetId r => mkState (db s) (auth s) (userId s) r (code s) (isSaving s) (status s) (isInitialized s)
  | setCode v => mkState (db s) (auth s) (userId s) (snippetId s) v (isSaving s) (status s) (isInitialized s)
  | setIsSaving b => mkState (db s) (auth s) (userId s) (snippetId s) (code s) b (status s) (isInitialized s)
  | setStatus m => mkState (db s) (auth s) (userId s) (snippetId s) (code s) (isSaving s) m (isInitialized s)
  | setIsInitialized b => mkState (db s) (auth s) (userId s) (snippetId s) (code s) (isSaving s) (status s) b
  | _ => s
  end.

Definition cancel (h : option nat) (ts : list Timer) : list Timer :=
  match h with
  | Some i => List.filter (fun t => negb (Nat.eqb (timer_id t) i)) ts
  | None => ts
  end.

Definition exec (w : World) (c : Cmd) : World :=
  match c with
  | clearTimeout_saveTimer => with_timers (cancel (saveTimer w) (timers w)) w
  | setTimeout_saveTimer cb ms =>
      mkWorld (react w) (mounted w) (now w)
              (timers w ++ [mkTimer (next_timer w) (now w + ms) cb])
              (Some (next_timer w)) (S (next_timer w))
              (listener w) (inflight w) (issued w) (store w)
  | setDoc ref data merge r =>
      mkWorld (react w) (mounted w) (now w) (timers w) (saveTimer w) (next_timer w)
              (listener w)
              (inflight w ++ [mkWrite ref data merge r])
              (issued w ++ [mkWrite ref data merge r])
              (store w)
  | console_error => w
  | _ => set_state (update c) w
  end.

Definition exec_all (cmds : list Cmd) (w : World) : World := fold_left exec cmds w.

#[global] Instance Firestore_eq_dec : EqDecision Firestore.
Proof. solve_decision. Defined.

(** The dependency array [[db, userId, snippetId]]. *)
Definition deps_same (a b : State) : bool :=
  bool_decide (db a = db b ∧ userId a = userId b ∧ snippetId a = snippetId b).

(** The second effect: the cleanup of its previous run ([unsubscribe()]),
    then its body, whose [onSnapshot] callback closes over this render.  The
    body builds the reference with [getSnippetDocRef]; this follows the body
    for a room on which [doc()] returns, a plain segment in particular (see
    [doc_accepts]). *)
Definition sync_effect (w : World) : World :=
  let r := react w in
  if match db r with None => true | Some _ => false end || falsy_str (userId r)
  then with_listener None w
  else exec (with_listener (Some r) w)
            (setStatus (js "Subscribing to room: " ++ snippetId r)).

(** After the state updates of a handler: the component renders again and
    the effect runs when a dependency changed. *)
Definition rerender (before : State) (w : World) : World :=
  if mounted w && negb (deps_same before (react w)) then sync_effect w else w.

Definition dispatch (cmds : list Cmd) (w : World) : World :=
  rerender (react w) (exec_all cmds w).

(** *** The document store

    The store is a service outside the component.  A write that is accepted
    replaces the server-timestamp sentinel by the server's time; with
    [{merge: true}] the written fields overwrite the fields of the same name
    and every other field of the document stays. *)

Definition resolve_timestamps (t : N) (data : gmap string Value) : gmap string Value :=
  (fun v => match v with VServerTimestamp => VTimestamp t | _ => v end) <$> data.

Definition merge_write (merge : bool) (new : gmap string Value)
    (old : option (gmap string Value)) : gmap string Value :=
  if merge then new ∪ default ∅ old else new.

Definition apply_write (t : N) (p : Write)
    (st : gmap (list jsstring) (gmap string Value)) : gmap (list jsstring) (gmap string Value) :=
  <[ ref_path (w_ref p) :=
       merge_write (w_merge p) (resolve_timestamps t (w_data p)) (st !! ref_path (w_ref p)) ]> st.

(** *** Timers *)

Definition is_due (t : N) (tm : Timer) : bool := N.leb (deadline tm) t.

(** Timers run in the order of their deadlines, then of their creation. *)
Definition runs_before (a b : Timer) : bool :=
  N.ltb (deadline a) (deadline b)
  || (N.eqb (deadline a) (deadline b) && Nat.leb (timer_id a) (timer_id b)).

Fixpoint insert_timer (a : Timer) (l : list Timer) : list Timer :=
  match l with
  | [] => [a]
  | b :: l' => if runs_before a b then a :: l else b :: insert_timer a l'
  end.

Definition in_order (l : list Timer) : list Timer := fold_right insert_timer [] l.

Definition fire (w : World) (tm : Timer) : World :=
  dispatch (run_callback (callback tm))
    (with_now (N.max (now w) (deadline tm))
       (with_timers (cancel (Some (timer_id tm)) (timers w)) w)).

(** Time passes by [d]: the timers that come due run, none of them sets a
    timer. *)
Definition advance (d : N) (w : World) : World :=
  let t := (now w + d)%N in
  with_now t (fold_left fire (in_order (List.filter (is_due t) (timers w))) w).

(** *** Events *)

Inductive Event :=
| Init (ok : bool)                                   (* the first effect *)
| AuthStateChanged (user : option jsstring)
| EditorChange (value : jsstring)                    (* CodeMirror onChange *)
| RoomInputChange (value : jsstring)                 (* input onChange *)
| RoomInputBlur (value : jsstring)                   (* input onBlur *)
| Snapshot (docSnapshot : option (gmap string Value))
| SnapshotError
| Settle (i : nat) (fulfilled : bool)                (* the i-th pending setDoc settles *)
| Tick (d : N)
| Unmount.

(** The editor and the room input exist once the component renders its main
    view.  The editor calls [onChange(value, viewUpdate)]: [handleSaveCode]
    receives the update object as [debounce], which is truthy. *)
Definition interactive (w : World) : bool := mounted w && isInitialized (react w).

Definition settle (i : nat) (fulfilled : bool) (w : World) : World :=
  match inflight w !! i with
  | None => w
  | Some p =>
      dispatch (saveToFirestore_settled (w_awaiting p) fulfilled)
        (mkWorld (react w) (mounted w) (now w) (timers w) (saveTimer w) (next_timer w)
                 (listener w) (delete i (inflight w)) (issued w)
                 (if fulfilled then apply_write (now w) p (store w) else store w))
  end.

Definition step (w : World) (e : Event) : World :=
  match e with
  | Init ok => dispatch (init_effect ok) w
  | AuthStateChanged user =>
      match db (react w) with
      | Some _ => dispatch (onAuthStateChanged_cb user) w
      | None => w
      end
  | EditorChange value =>
      if interactive w
      then dispatch (handleSaveCode (react w) (VStr value) true) w
      else w
  | RoomInputChange value =>
      if interactive w then dispatch (roomInput_onChange value) w else w
  | RoomInputBlur value =>
      if interactive w then dispatch (handleRoomChange value) w else w
  | Snapshot d =>
      match listener w with
      | Some r => dispatch (onSnapshot_next r d) w
      | None => w
      end
  | SnapshotError =>
      match listener w with
      | Some r => with_listener None (dispatch (onSnapshot_error r) w)
      | None => w
      end
  | Settle i fulfilled => settle i fulfilled w
  | Tick d => advance d w
  | Unmount => with_listener None
                 (mkWorld (react w) false (now w) (timers w) (saveTimer w) (next_timer w)
                          (listener w) (inflight w) (issued w) (store w))
  end.

Definition run (w : World) (es : list Event) : World := fold_left step es w.

(** ** Vocabulary of the properties *)

(** [db] and [userId] are set: the guard of [handleSaveCode] and of the
    subscription effect lets the call through. *)
Definition signed_in (s : State) : bool :=
  match db s with
  | Some _ => negb (falsy_str (userId s))
  | None => false
  end.

(** The editor is on screen and the session is established. *)
Definition ready (w : World) : bool := interactive w && signed_in (react w).

(** Every pending timeout is the one [window.saveTimer] refers to. *)
Definition timers_owned (w : World) : bool :=
  forallb (fun tm => bool_decide (saveTimer w = Some (timer_id tm))) (timers w).

(** What a [setDoc] call sends: reference, fields and the merge option. *)
Definition request (p : Write) : DocRef * gmap string Value * bool :=
  (w_ref p, w_data p, w_merge p).

(** The fields a commit of [content] by user [u] carries. *)
Definition payload (content : Value) (u : option jsstring) : gmap string Value :=
  <["content" := content]>
    (<["lastEditedBy" := match u with Some uid => VStr uid | None => VNull end]>
       {["timestamp" := VServerTimestamp]}).

(** The request of a commit made by a closure of render [r]. *)
Definition commit_request (r : State) (content : Value) : DocRef * gmap string Value * bool :=
  (getSnippetDocRef (db r) (snippetId r), payload content (userId r), true).

Definition is_timer_cmd (c : Cmd) : bool :=
  match c with
  | clearTimeout_saveTimer | setTimeout_saveTimer _ _ => true
  | _ => false
  end.

(** The writes a list of calls makes. *)
Definition writes_of (cmds : list Cmd) : list Write :=
  flat_map (fun c => match c with
                     | setDoc ref data merge r => [mkWrite ref data merge r]
                     | _ => []
                     end) cmds.


(** A burst of edits: a first one, then edits each preceded by a pause. *)
Fixpoint burst (c : jsstring) (more : list (N * jsstring)) : list Event :=
  EditorChange c ::
  match more with
  | [] => []
  | g :: more' => Tick (fst g) :: burst (snd g) more'
  end.

Definition last_edit (c : jsstring) (more : list (N * jsstring)) : jsstring :=
  List.last (map snd more) c.

Definition quiet_period : N := 1000.

(** The room identifiers the specification allows. *)
Definition room_char (c : N) : Prop :=
  (97 <= c <= 122)%N \/ (65 <= c <= 90)%N \/ (48 <= c <= 57)%N \/ c = 45%N.

Definition valid_room (s : jsstring) : Prop :=
  s <> [] /\ length s < 50 /\ Forall room_char s.

(** [toUpperCase] on ASCII, which every host agrees on. *)
Definition ascii_table (up : N -> jsstring) : Prop :=
  forall c, (c < 128)%N -> up c = [ascii_upper c].

(** The world once the session is established and the first subscription is
    open, for a user id [uid]. *)
Definition session (uid : jsstring) : World :=
  run initial_world [Init true; AuthStateChanged (Some uid)].

(** An existing document whose content is [s]. *)
Definition remote_doc (s : jsstring) (by_user : jsstring) (t : N) : gmap string Value :=
  <["content" := VStr s]>
    (<["lastEditedBy" := VStr by_user]> {["timestamp" := VTimestamp t]}).

(** A burst that started in [w0] has left [w1] with exactly one pending
    timeout, due one quiet period from now, whose closure holds [c] and was
    created by a render with the session and the room of [w0]; nothing has
    been written since [w0]. *)
Definition armed (w0 w1 : World) (c : jsstring) : Prop :=
  ready w1 = true
  /\ issued w1 = issued w0
  /\ signed_in (react w0) = true
  /\ exists id r,
       timers w1 = [mkTimer id (now w1 + quiet_period) (mkCallback r (VStr c))]
       /\ saveTimer w1 = Some id
       /\ db r = db (react w0) /\ userId r = userId (react w0)
       /\ snippetId r = snippetId (react w0)
       /\ db (react w1) = db (react w0) /\ userId (react w1) = userId (react w0)
       /\ snippetId (react w1) = snippetId (react w0).

(** *** Segments, and the values a document holds *)

(** A segment on which [doc] here and the SDK's [doc()] agree: not empty, no
    slash (code unit 47). *)
Definition plain_segment (s : jsstring) : bool :=
  match s with
  | [] => false
  | _ => forallb (fun c => negb (N.eqb c 47)) s
  end.

(** The namespace and the room are plain segments: [doc()] returns the
    six-segment reference [getSnippetDocRef] builds. *)
Definition doc_accepts (room : jsstring) : bool :=
  plain_segment appId && plain_segment room.







(** ** Vocabulary of the further properties *)

(** The listener, when there is one, belongs to a mounted component and was
    installed by a render with the live session and the live room. *)
Definition listener_current (w : World) : Prop :=
  match listener w with
  | Some r =>
      mounted w = true /\ signed_in r = true
      /\ db r = db (react w) /\ userId r = userId (react w)
      /\ snippetId r = snippetId (react w)
  | None => True
  end.

(** The calls that change a dependency of the subscription effect. *)
Definition touches_deps (c : Cmd) : bool :=
  match c with
  | setDb _ | setUserId _ | setSnippetId _ => true
  | _ => false
  end.

(** Edits, notifications, settled writes and the passing of time. *)
Definition keeps_subscription (e : Event) : bool :=
  match e with
  | EditorChange _ | Snapshot _ | Settle _ _ | Tick _ => true
  | _ => false
  end.

(** The events in which [setDoc] can be called. *)
Definition may_write (e : Event) : bool :=
  match e with
  | Tick _ | Snapshot None => true
  | _ => false
  end.

(** The only call that would bring the loading view back. *)
Definition hides_editor (c : Cmd) : bool :=
  match c with
  | setIsInitialized false => true
  | _ => false
  end.

Definition is_sign_in (e : Event) : bool :=
  match e with
  | AuthStateChanged (Some _) => true
  | _ => false
  end.

(** Nobody has signed in yet: the loading view, no listener, no timer, no
    write. *)
Definition dormant (w : World) : Prop :=
  isInitialized (react w) = false /\ userId (react w) = None
  /\ listener w = None /\ inflight w = [] /\ issued w = [] /\ timers w = [].

(** ** Basic facts about the machine *)

Lemma deps_same_refl (s : State) : deps_same s s = true.
Proof. unfold deps_same. apply bool_decide_eq_true. auto. Qed.

Lemma exec_all_app (c1 c2 : list Cmd) (w : World) :
  exec_all (c1 ++ c2) w = exec_all c2 (exec_all c1 w).
Proof. unfold exec_all. apply fold_left_app. Qed.

Lemma dispatch_nil (w : World) : dispatch [] w = w.
Proof.
  unfold dispatch, rerender. simpl.
  rewrite deps_same_refl. now rewrite andb_false_r.
Qed.

Lemma rerender_same_deps (before : State) (w : World) :
  deps_same before (react w) = true -> rerender before w = w.
Proof. intros H. unfold rerender. rewrite H. now rewrite andb_false_r. Qed.

Lemma signed_in_guard (s : State) :
  signed_in s = true ->
  (match db s with None => true | Some _ => false end || falsy_str (userId s)) = false.
Proof.
  unfold signed_in. destruct (db s); [|discriminate].
  destruct (falsy_str (userId s)); [discriminate|reflexivity].
Qed.

Lemma not_signed_in_guard (s : State) :
  db s = None \/ userId s = None ->
  (match db s with None => true | Some _ => false end || falsy_str (userId s)) = true.
Proof.
  intros [H|H]; rewrite H; [reflexivity|].
  destruct (db s); reflexivity.
Qed.

Lemma ready_parts (w : World) :
  ready w = true ->
  mounted w = true /\ isInitialized (react w) = true /\ signed_in (react w) = true.
Proof.
  unfold ready, interactive. intros H.
  apply andb_true_iff in H as [H1 H3]. apply andb_true_iff in H1 as [H1 H2]. auto.
Qed.

Lemma issued_set_state (f : State -> State) (w : World) :
  issued (set_state f w) = issued w.
Proof. unfold set_state. destruct (mounted w); reflexivity. Qed.

Lemma timers_set_state (f : State -> State) (w : World) :
  timers (set_state f w) = timers w.
Proof. unfold set_state. destruct (mounted w); reflexivity. Qed.

(** ** Calls made before the session is established *)

(** C10: a call of [handleSaveCode] from a render in which [db] or [userId]
    is still [null] makes no call at all, whatever the arguments: the buffer
    is not updated, no timer is set, nothing is written, the world is
    unchanged. *)
Theorem handleSaveCode_unauthenticated_noop
    (w : World) (r : State) (newCode : Value) (debounce : bool) :
  db r = None \/ userId r = None ->
  handleSaveCode r newCode debounce = []
  /\ dispatch (handleSaveCode r newCode debounce) w = w
  /\ code (react (dispatch (handleSaveCode r newCode debounce) w)) = code (react w)
  /\ timers (dispatch (handleSaveCode r newCode debounce) w) = timers w
  /\ issued (dispatch (handleSaveCode r newCode debounce) w) = issued w.
Proof.
  intros H.
  assert (E : handleSaveCode r newCode debounce = []).
  { unfold handleSaveCode. now rewrite (not_signed_in_guard r H). }
  rewrite E, dispatch_nil. auto.
Qed.

(** ** Remote notifications *)

(** C9: a notification for an existing document whose [content] is missing
    or is the empty string changes nothing, whatever [isSaving] is: the
    buffer keeps its value. *)
Theorem snapshot_without_content_ignored (w : World) (data : gmap string Value) :
  data !! "content" = None \/ data !! "content" = Some (VStr []) ->
  step w (Snapshot (Some data)) = w
  /\ code (react (step w (Snapshot (Some data)))) = code (react w).
Proof.
  intros H.
  assert (E : step w (Snapshot (Some data)) = w).
  { simpl. destruct (listener w) as [r|]; [|reflexivity].
    assert (T : truthy (content_of data) = false).
    { unfold content_of. destruct H as [-> | ->]; reflexivity. }
    unfold onSnapshot_next. rewrite T, andb_false_r. apply dispatch_nil. }
  now rewrite E.
Qed.

(** ** Local edits and the debounce timer *)

Lemma cancel_owned (w : World) :
  timers_owned w = true -> cancel (saveTimer w) (timers w) = [].
Proof.
  unfold timers_owned, cancel. intros H.
  destruct (saveTimer w) as [h|].
  - induction (timers w) as [|tm ts IH]; [reflexivity|].
    simpl in *. apply andb_true_iff in H as [H1 H2].
    apply bool_decide_eq_true in H1. injection H1 as ->.
    rewrite Nat.eqb_refl. simpl. auto.
  - destruct (timers w); [reflexivity|].
    simpl in H. discriminate.
Qed.

(** What [handleSaveCode(value)] from the editor does to the world. *)
Lemma editor_change_world (w : World) (c : jsstring) :
  ready w = true ->
  step w (EditorChange c) =
    mkWorld (update (setCode (VStr c)) (react w)) true (now w)
      (cancel (saveTimer w) (timers w)
         ++ [mkTimer (next_timer w) (now w + quiet_period) (mkCallback (react w) (VStr c))])
      (Some (next_timer w)) (S (next_timer w))
      (listener w) (inflight w) (issued w) (store w).
Proof.
  intros R. destruct (ready_parts w R) as (M & I & S).
  unfold step, interactive. rewrite M, I. simpl.
  unfold handleSaveCode. rewrite (signed_in_guard _ S).
  destruct w as [r m t ts h n l fl iss st]. simpl in *. subst m.
  unfold dispatch, exec_all. simpl. unfold set_state. simpl.
  apply rerender_same_deps. simpl.
  unfold deps_same. apply bool_decide_eq_true. simpl. auto.
Qed.

(** C6: an edit reported by the editor sets the buffer to the new content
    at once and hands the content to the debounce timer: nothing is written
    yet, [window.saveTimer] refers to a timeout due one quiet period later,
    and the closure of that timeout commits exactly the new content. *)
Theorem local_edit_optimistic_echo (w : World) (newContent : jsstring) :
  ready w = true ->
  code (react (step w (EditorChange newContent))) = VStr newContent
  /\ issued (step w (EditorChange newContent)) = issued w
  /\ saveTimer (step w (EditorChange newContent)) = Some (next_timer w)
  /\ In (mkTimer (next_timer w) (now w + quiet_period)
                 (mkCallback (react w) (VStr newContent)))
        (timers (step w (EditorChange newContent)))
  /\ run_callback (mkCallback (react w) (VStr newContent))
     = saveToFirestore (react w) (VStr newContent)
  /\ map request (issued (exec_all (run_callback (mkCallback (react w) (VStr newContent))) w))
     = map request (issued w) ++ [commit_request (react w) (VStr newContent)].
Proof.
  intros R. rewrite (editor_change_world w newContent R). simpl.
  repeat split; try reflexivity.
  - apply in_or_app. right. left. reflexivity.
  - unfold exec_all, run_callback, saveToFirestore. simpl.
    rewrite map_app, !issued_set_state. reflexivity.
Qed.

Lemma last_cons_default (A : Type) (x d : A) (l : list A) :
  List.last (x :: l) d = List.last l x.
Proof.
  revert x d. induction l as [|y l IH]; intros x d; [reflexivity|].
  change (List.last (x :: y :: l) d) with (List.last (y :: l) d).
  rewrite (IH y d), (IH y x). reflexivity.
Qed.

Lemma edit_arms (w : World) (c : jsstring) :
  ready w = true -> timers_owned w = true ->
  armed w (step w (EditorChange c)) c.
Proof.
  intros R O. rewrite (editor_change_world w c R), (cancel_owned w O).
  destruct (ready_parts w R) as (M & I & S).
  unfold armed. simpl. repeat split; auto.
  - unfold ready, interactive, signed_in in *. simpl. rewrite I. exact S.
  - exists (next_timer w), (react w). repeat split; reflexivity.
Qed.

Lemma armed_rebase (w0 w1 w2 : World) (c : jsstring) :
  armed w1 w2 c ->
  issued w1 = issued w0 ->
  db (react w1) = db (react w0) ->
  userId (react w1) = userId (react w0) ->
  snippetId (react w1) = snippetId (react w0) ->
  signed_in (react w0) = true ->
  armed w0 w2 c.
Proof.
  intros (R & I & _ & id & r & Ht & Hh & E1 & E2 & E3 & E4 & E5 & E6) Hi Hd Hu Hs S.
  unfold armed. repeat split; auto; [congruence|].
  exists id, r. repeat split; congruence.
Qed.

(** A pause shorter than what is left of the quiet period only moves the
    clock. *)
Lemma pause_world (w0 w1 : World) (c : jsstring) (d : N) :
  armed w0 w1 c -> (d < quiet_period)%N ->
  step w1 (Tick d) = with_now (now w1 + d) w1.
Proof.
  intros (_ & _ & _ & id & r & Ht & _) Hd.
  simpl. unfold advance. rewrite Ht. simpl. unfold is_due. simpl.
  replace (N.leb (now w1 + quiet_period) (now w1 + d)) with false; [reflexivity|].
  symmetry. apply N.leb_gt. lia.
Qed.

Lemma armed_fires (w0 w1 : World) (c : jsstring) (d : N) :
  armed w0 w1 c -> (quiet_period <= d)%N ->
  map request (issued (step w1 (Tick d)))
    = map request (issued w0) ++ [commit_request (react w0) (VStr c)]
  /\ timers (step w1 (Tick d)) = [].
Proof.
  intros (R & I & _ & id & r & Ht & _ & E1 & E2 & E3 & _) Hd.
  destruct (ready_parts w1 R) as (M & _ & _).
  destruct w1 as [s m t ts h n l fl iss st]. simpl in *. subst m ts iss.
  unfold advance. simpl. unfold is_due. simpl.
  replace (N.leb (t + quiet_period) (t + d)) with true
    by (symmetry; apply N.leb_le; lia).
  simpl. unfold fire. simpl. rewrite Nat.eqb_refl. simpl.
  unfold dispatch, exec_all, run_callback, saveToFirestore. simpl.
  unfold set_state. simpl.
  rewrite rerender_same_deps
    by (simpl; unfold deps_same; apply bool_decide_eq_true; simpl; auto).
  simpl. rewrite map_app. simpl.
  unfold commit_request, request, payload. simpl. rewrite E1, E2, E3. auto.
Qed.

Lemma burst_arms (more : list (N * jsstring)) :
  forall (w : World) (c : jsstring),
    ready w = true -> timers_owned w = true ->
    Forall (fun g => (fst g < quiet_period)%N) more ->
    armed w (run w (burst c more)) (last_edit c more).
Proof.
  induction more as [|g more IH]; intros w c R O G.
  - simpl. apply edit_arms; assumption.
  - apply Forall_cons_1 in G as [Hg G].
    pose proof (edit_arms w c R O) as A.
    change (run w (burst c (g :: more)))
      with (run (step (step w (EditorChange c)) (Tick (fst g))) (burst (snd g) more)).
    rewrite (pause_world w _ c (fst g) A Hg).
    unfold last_edit. simpl map. rewrite last_cons_default.
    destruct A as (R1 & I1 & S0 & id & r & Ht & Hh & E1 & E2 & E3 & E4 & E5 & E6).
    set (w1 := step w (EditorChange c)) in *.
    assert (R2 : ready (with_now (now w1 + fst g) w1) = true) by exact R1.
    assert (O2 : timers_owned (with_now (now w1 + fst g) w1) = true).
    { unfold timers_owned. simpl. rewrite Ht, Hh. simpl.
      rewrite bool_decide_eq_true_2; reflexivity. }
    apply (armed_rebase w (with_now (now w1 + fst g) w1));
      [apply (IH _ (snd g) R2 O2 G) | simpl; assumption ..].
Qed.

(** C1: a burst of edits from the editor, each one less than a quiet period
    after the previous one, writes nothing while it lasts and nothing in any
    shorter pause after it; once a full quiet period has passed since the last
    edit exactly one write has been made, it carries the content of the last
    edit, and no timeout is left pending. *)
Theorem coalescing_law (w : World) (c : jsstring) (more : list (N * jsstring)) :
  ready w = true ->
  timers_owned w = true ->
  Forall (fun g => (fst g < quiet_period)%N) more ->
  issued (run w (burst c more)) = issued w
  /\ (forall d, (d < quiet_period)%N ->
        issued (step (run w (burst c more)) (Tick d)) = issued w)
  /\ (forall d, (quiet_period <= d)%N ->
        map request (issued (step (run w (burst c more)) (Tick d)))
          = map request (issued w) ++ [commit_request (react w) (VStr (last_edit c more))]
        /\ timers (step (run w (burst c more)) (Tick d)) = []).
Proof.
  intros R O G. pose proof (burst_arms more w c R O G) as A.
  split; [|split].
  - apply A.
  - intros d Hd. rewrite (pause_world w _ _ d A Hd). simpl. apply A.
  - intros d Hd. apply (armed_fires w _ _ d A Hd).
Qed.

(** ** Commits *)

Lemma saveToFirestore_calls (r : State) (content : Value) :
  saveToFirestore r content =
    [ setIsSaving true;
      setStatus (js "Saving changes to Firestore...");
      setDoc (getSnippetDocRef (db r) (snippetId r)) (payload content (userId r)) true r ].
Proof. reflexivity. Qed.

Lemma settle_world (w : World) (i : nat) (p : Write) (fulfilled : bool) :
  mounted w = true ->
  inflight w !! i = Some p ->
  step w (Settle i fulfilled) =
    mkWorld
      (update (setIsSaving false)
         (update (setStatus
                    (if fulfilled
                     then js "Changes saved successfully to room: " ++ snippetId (w_awaiting p)
                     else js "Error: Failed to save changes."))
            (react w)))
      true (now w) (timers w) (saveTimer w) (next_timer w) (listener w)
      (delete i (inflight w)) (issued w)
      (if fulfilled then apply_write (now w) p (store w) else store w).
Proof.
  intros M H. simpl. unfold settle. rewrite H.
  destruct w as [s m t ts h n l fl iss st]. simpl in *. subst m.
  unfold dispatch, saveToFirestore_settled.
  destruct fulfilled; simpl; unfold exec_all, set_state; simpl;
    apply rerender_same_deps; simpl;
    unfold deps_same; apply bool_decide_eq_true; simpl; auto.
Qed.

(** C4: a commit raises [isSaving] before it calls [setDoc] with the fields
    [content], [lastEditedBy] and the server-timestamp sentinel under
    [{merge: true}]; when the write settles, fulfilled or rejected,
    [isSaving] is lowered again; a rejected write reports the error in
    [status], leaves the store as it was, is not issued again (no new call,
    no timer) and leaves the buffer alone. *)
Theorem commit_in_flight_flag (w : World) (r : State) (content : Value) :
  mounted w = true ->
  (exists before,
      saveToFirestore r content
        = before ++ [setDoc (getSnippetDocRef (db r) (snippetId r))
                            (payload content (userId r)) true r]
      /\ existsb is_setDoc before = false
      /\ isSaving (react (exec_all before w)) = true)
  /\ isSaving (react (exec_all (saveToFirestore r content) w)) = true
  /\ inflight (exec_all (saveToFirestore r content) w)
     = inflight w ++ [mkWrite (getSnippetDocRef (db r) (snippetId r))
                              (payload content (userId r)) true r]
  /\ (forall i p fulfilled,
        inflight w !! i = Some p ->
        isSaving (react (step w (Settle i fulfilled))) = false
        /\ inflight (step w (Settle i fulfilled)) = delete i (inflight w)
        /\ issued (step w (Settle i fulfilled)) = issued w
        /\ timers (step w (Settle i fulfilled)) = timers w
        /\ code (react (step w (Settle i fulfilled))) = code (react w)
        /\ (fulfilled = false ->
            status (react (step w (Settle i fulfilled)))
              = js "Error: Failed to save changes."
            /\ store (step w (Settle i fulfilled)) = store w)).
Proof.
  intros M. rewrite saveToFirestore_calls.
  split; [|split; [|split]].
  - exists [setIsSaving true; setStatus (js "Saving changes to Firestore...")].
    destruct w as [s m t ts h n l fl iss st]. simpl in M. subst m.
    repeat split.
  - destruct w as [s m t ts h n l fl iss st]. simpl in M. subst m. reflexivity.
  - destruct w as [s m t ts h n l fl iss st]. simpl in M. subst m. reflexivity.
  - intros i p fulfilled H. rewrite (settle_world w i p fulfilled M H). simpl.
    repeat split; try reflexivity; subst fulfilled; reflexivity.
Qed.

(** ** The persisted layout *)



Lemma merge_write_written (t : N) (new old : gmap string Value) (f : string) (v : Value) :
  new !! f = Some v ->
  merge_write true (resolve_timestamps t new) (Some old) !! f
    = Some (match v with VServerTimestamp => VTimestamp t | _ => v end).
Proof.
  intros H. unfold merge_write, resolve_timestamps. simpl.
  apply lookup_union_Some_l. now rewrite lookup_fmap, H.
Qed.

Lemma issued_exec (w : World) (c : Cmd) :
  issued (exec w c) = issued w ++ writes_of [c].
Proof.
  destruct c; simpl; rewrite ?issued_set_state, ?app_nil_r; reflexivity.
Qed.

Lemma issued_exec_all (cmds : list Cmd) (w : World) :
  issued (exec_all cmds w) = issued w ++ writes_of cmds.
Proof.
  revert w. induction cmds as [|c cmds IH]; intros w.
  - simpl. now rewrite app_nil_r.
  - change (exec_all (c :: cmds) w) with (exec_all cmds (exec w c)).
    rewrite IH, issued_exec. unfold writes_of. simpl.
    now rewrite app_nil_r, app_assoc.
Qed.

Lemma issued_rerender (before : State) (w : World) :
  issued (rerender before w) = issued w.
Proof.
  unfold rerender, sync_effect.
  destruct (mounted w && negb (deps_same before (react w))); [|reflexivity].
  destruct (_ || _); [reflexivity|]. simpl. now rewrite issued_set_state.
Qed.

Lemma issued_dispatch (cmds : list Cmd) (w : World) :
  issued (dispatch cmds w) = issued w ++ writes_of cmds.
Proof. unfold dispatch. now rewrite issued_rerender, issued_exec_all. Qed.
























Lemma plain_segment_nonempty (s : jsstring) : plain_segment s = true -> s <> [].
Proof. destruct s; [discriminate | discriminate]. Qed.


(** ** Room identifiers *)

Lemma in_range (lo hi a : N) : In a (range lo hi) <-> (lo <= a <= hi)%N.
Proof.
  unfold range. rewrite in_map_iff. split.
  - intros (n & <- & H). apply in_seq in H. lia.
  - intros H. exists (N.to_nat a). split; [apply N2Nat.id|].
    apply in_seq. lia.
Qed.

Lemma in_room_class (a : N) :
  In a room_class <-> ((97 <= a <= 122)%N \/ (48 <= a <= 57)%N \/ a = 45%N).
Proof.
  unfold room_class, ClassRanges. cbn [flat_map fst snd].
  rewrite !in_app_iff, !in_range. simpl. lia.
Qed.

Lemma ascii_upper_bound (c : N) : (c < 128)%N -> (ascii_upper c < 128)%N.
Proof.
  unfold ascii_upper. destruct (N.leb 97 c && N.leb c 122); lia.
Qed.

Lemma ascii_upper_cases (c : N) :
  ((97 <= c <= 122)%N /\ ascii_upper c = (c - 32)%N)
  \/ (~ (97 <= c <= 122)%N /\ ascii_upper c = c).
Proof.
  unfold ascii_upper.
  destruct (N.leb_spec 97 c), (N.leb_spec c 122); simpl; lia.
Qed.

Section Canonical.

Hypothesis table : ascii_table toUpperCase.

Lemma Canonicalize_ascii (c : N) :
  (c < 128)%N -> Canonicalize toUpperCase c = ascii_upper c.
Proof.
  intros H. unfold Canonicalize. rewrite (table c H).
  replace (N.leb 128 c) with false; [reflexivity|].
  symmetry. apply N.leb_gt. exact H.
Qed.

Lemma Canonicalize_beyond_ascii (c : N) :
  (128 <= c)%N -> (128 <= Canonicalize toUpperCase c)%N.
Proof.
  intros H. unfold Canonicalize.
  destruct (toUpperCase c) as [|cu [|? ?]]; try exact H.
  replace (N.leb 128 c) with true by (symmetry; apply N.leb_le; exact H).
  simpl. destruct (N.ltb_spec cu 128); assumption.
Qed.

Lemma matcher_room_char (ch : N) :
  CharacterSetMatcher toUpperCase room_class ch = true <-> room_char ch.
Proof.
  unfold CharacterSetMatcher, room_char. rewrite existsb_exists. split.
  - intros (a & Ha & E). apply N.eqb_eq in E. apply in_room_class in Ha.
    assert (La : (a < 128)%N) by lia.
    rewrite (Canonicalize_ascii a La) in E.
    destruct (N.lt_ge_cases ch 128) as [Lc|Lc].
    + rewrite (Canonicalize_ascii ch Lc) in E.
      destruct (ascii_upper_cases a) as [[? Ea]|[? Ea]],
               (ascii_upper_cases ch) as [[? Ec]|[? Ec]]; lia.
    + pose proof (Canonicalize_beyond_ascii ch Lc).
      pose proof (ascii_upper_bound a La). lia.
  - intros H.
    exists (if N.leb 65 ch && N.leb ch 90 then (ch + 32)%N else ch).
    destruct (N.leb_spec 65 ch), (N.leb_spec ch 90); simpl;
      (split; [apply in_room_class; lia|]);
      apply N.eqb_eq; rewrite !Canonicalize_ascii by lia;
      match goal with
      | |- ascii_upper ?x = ascii_upper ?y =>
          destruct (ascii_upper_cases x) as [[? Ex]|[? Ex]],
                   (ascii_upper_cases y) as [[? Ey]|[? Ey]]; lia
      end.
Qed.

Lemma plus_to_end_all (A : list N) (s : jsstring) :
  plus_to_end toUpperCase A s = true
  <-> s <> [] /\ Forall (fun ch => CharacterSetMatcher toUpperCase A ch = true) s.
Proof.
  induction s as [|ch rest IH].
  - simpl. split; [discriminate|]. intros [H _]. now contradiction H.
  - cbn [plus_to_end]. rewrite andb_true_iff. destruct rest as [|ch' rest'].
    + split.
      * intros [H _]. split; [discriminate|]. repeat constructor. exact H.
      * intros [_ H]. apply Forall_cons_1 in H as [H _]. auto.
    + rewrite IH. split.
      * intros (H1 & _ & H2). split; [discriminate|]. constructor; assumption.
      * intros [_ H]. apply Forall_cons_1 in H as [H1 H2].
        repeat split; [assumption|discriminate|assumption].
Qed.

Lemma room_id_ok_valid (s : jsstring) : room_id_ok s = true <-> valid_room s.
Proof.
  unfold room_id_ok, valid_room, room_regex_match.
  rewrite !andb_true_iff, Nat.ltb_lt, plus_to_end_all. split.
  - intros [[_ L] [E F]]. repeat split; try assumption.
    eapply List.Forall_impl; [|exact F]. intros ch. apply matcher_room_char.
  - intros (E & L & F). repeat split; try assumption.
    + destruct s; [now contradiction E | reflexivity].
    + eapply List.Forall_impl; [|exact F]. intros ch. apply matcher_room_char.
Qed.

End Canonical.

Lemma snippetId_rerender (before : State) (w : World) :
  snippetId (react (rerender before w)) = snippetId (react w).
Proof.
  unfold rerender, sync_effect.
  destruct (mounted w && negb (deps_same before (react w))); [|reflexivity].
  destruct (_ || _); [reflexivity|]. simpl. unfold set_state. simpl.
  destruct (mounted w); reflexivity.
Qed.

(** C5: [handleRoomChange] accepts a candidate exactly when its trimmed
    form is non-empty, shorter than 50 and made of ASCII letters, digits and
    hyphens.  An accepted candidate becomes the room, in its trimmed form.
    A rejected one changes nothing but [status], which receives the
    validation message: the room, the listener, the writes made and pending,
    the timers and the store are as before. *)
Theorem room_validation (w : World) (candidate : jsstring) :
  ascii_table toUpperCase ->
  interactive w = true ->
  (handleRoomChange candidate = [setSnippetId (trim candidate)]
   <-> valid_room (trim candidate))
  /\ (valid_room (trim candidate) ->
      snippetId (react (step w (RoomInputBlur candidate))) = trim candidate)
  /\ (~ valid_room (trim candidate) ->
      step w (RoomInputBlur candidate)
        = with_react
            (update (setStatus (js "Room ID must be alphanumeric/hyphenated and non-empty."))
                    (react w)) w
      /\ snippetId (react (step w (RoomInputBlur candidate))) = snippetId (react w)
      /\ listener (step w (RoomInputBlur candidate)) = listener w
      /\ issued (step w (RoomInputBlur candidate)) = issued w
      /\ inflight (step w (RoomInputBlur candidate)) = inflight w
      /\ timers (step w (RoomInputBlur candidate)) = timers w
      /\ store (step w (RoomInputBlur candidate)) = store w
      /\ status (react (step w (RoomInputBlur candidate)))
         = js "Room ID must be alphanumeric/hyphenated and non-empty.").
Proof.
  intros T I.
  pose proof (room_id_ok_valid T (trim candidate)) as V.
  assert (M : mounted w = true).
  { unfold interactive in I. now apply andb_true_iff in I as [I _]. }
  split; [|split].
  - unfold handleRoomChange. destruct (room_id_ok (trim candidate)).
    + split; [intros _; now apply V | reflexivity].
    + split; [discriminate|]. intros H. apply V in H. discriminate.
  - intros H. apply V in H. simpl. rewrite I. unfold handleRoomChange. rewrite H.
    unfold dispatch. rewrite snippetId_rerender.
    unfold exec_all. simpl. unfold set_state. now rewrite M.
  - intros H.
    assert (E : room_id_ok (trim candidate) = false).
    { destruct (room_id_ok (trim candidate)); [|reflexivity].
      contradiction H. now apply V. }
    assert (S : step w (RoomInputBlur candidate)
                = with_react
                    (update (setStatus (js "Room ID must be alphanumeric/hyphenated and non-empty."))
                            (react w)) w).
    { simpl. rewrite I. unfold handleRoomChange. rewrite E.
      unfold dispatch, exec_all. simpl. unfold set_state. rewrite M.
      apply rerender_same_deps. simpl.
      unfold deps_same. apply bool_decide_eq_true. simpl. auto. }
    rewrite S. repeat split.
Qed.

(** ** The timer handle

    [window.saveTimer] always refers to the only timeout that can be
    pending: every [setTimeout] of the component is preceded by
    [clearTimeout] of the handle. *)

Lemma timers_exec (w : World) (c : Cmd) :
  is_timer_cmd c = false ->
  timers (exec w c) = timers w /\ saveTimer (exec w c) = saveTimer w.
Proof.
  destruct c; simpl; try discriminate; intros _;
    unfold set_state; destruct (mounted w); auto.
Qed.

Lemma timers_exec_all (cmds : list Cmd) (w : World) :
  forallb (fun c => negb (is_timer_cmd c)) cmds = true ->
  timers (exec_all cmds w) = timers w /\ saveTimer (exec_all cmds w) = saveTimer w.
Proof.
  revert w. induction cmds as [|c cmds IH]; intros w H; [auto|].
  simpl in H. apply andb_true_iff in H as [Hc H].
  apply negb_true_iff in Hc.
  change (exec_all (c :: cmds) w) with (exec_all cmds (exec w c)).
  destruct (IH (exec w c) H) as [-> ->]. now apply timers_exec.
Qed.

Lemma timers_rerender (before : State) (w : World) :
  timers (rerender before w) = timers w
  /\ saveTimer (rerender before w) = saveTimer w.
Proof.
  unfold rerender, sync_effect.
  destruct (mounted w && negb (deps_same before (react w))); [|auto].
  destruct (_ || _); [auto|]. simpl. unfold set_state. simpl.
  destruct (mounted w); auto.
Qed.

Lemma timers_dispatch (cmds : list Cmd) (w : World) :
  forallb (fun c => negb (is_timer_cmd c)) cmds = true ->
  timers (dispatch cmds w) = timers w /\ saveTimer (dispatch cmds w) = saveTimer w.
Proof.
  intros H. unfold dispatch.
  destruct (timers_rerender (react w) (exec_all cmds w)) as [-> ->].
  now apply timers_exec_all.
Qed.

Lemma owned_dispatch (cmds : list Cmd) (w : World) :
  forallb (fun c => negb (is_timer_cmd c)) cmds = true ->
  timers_owned w = true -> timers_owned (dispatch cmds w) = true.
Proof.
  intros H O. unfold timers_owned.
  destruct (timers_dispatch cmds w H) as [-> ->]. exact O.
Qed.

Lemma owned_handleSaveCode (r : State) (newCode : Value) (debounce : bool) (w : World) :
  timers_owned w = true ->
  timers_owned (dispatch (handleSaveCode r newCode debounce) w) = true.
Proof.
  intros O. unfold handleSaveCode. destruct (_ || _).
  - now rewrite dispatch_nil.
  - destruct debounce; [|now apply owned_dispatch].
    unfold dispatch, timers_owned.
    destruct (timers_rerender (react w)
                (exec_all [setCode newCode; clearTimeout_saveTimer;
                           setTimeout_saveTimer (mkCallback r newCode) 1000] w))
      as [-> ->].
    unfold exec_all. simpl.
    rewrite timers_set_state.
    replace (saveTimer (set_state (update (setCode newCode)) w)) with (saveTimer w)
      by (unfold set_state; destruct (mounted w); reflexivity).
    rewrite (cancel_owned w O). simpl.
    rewrite bool_decide_eq_true_2; [reflexivity|].
    unfold set_state; destruct (mounted w); reflexivity.
Qed.

Lemma owned_filter (h : option nat) (f : Timer -> bool) (ts : list Timer) :
  forallb (fun tm => bool_decide (h = Some (timer_id tm))) ts = true ->
  forallb (fun tm => bool_decide (h = Some (timer_id tm))) (List.filter f ts) = true.
Proof.
  induction ts as [|tm ts IH]; [auto|]. simpl. intros H.
  apply andb_true_iff in H as [H1 H2].
  destruct (f tm); simpl; [rewrite H1|]; auto.
Qed.

Lemma owned_fire (l : list Timer) (w : World) :
  timers_owned w = true -> timers_owned (fold_left fire l w) = true.
Proof.
  revert w. induction l as [|tm l IH]; intros w O; [exact O|].
  simpl. apply IH. unfold fire. apply owned_dispatch; [reflexivity|].
  unfold timers_owned. simpl. apply owned_filter. exact O.
Qed.

Lemma step_owned (w : World) (e : Event) :
  timers_owned w = true -> timers_owned (step w e) = true.
Proof.
  intros O. destruct e; simpl.
  - apply owned_dispatch; [now destruct ok | exact O].
  - destruct (db (react w)); [|exact O].
    apply owned_dispatch; [now destruct user | exact O].
  - destruct (interactive w); [|exact O]. now apply owned_handleSaveCode.
  - destruct (interactive w); [|exact O]. now apply owned_dispatch.
  - destruct (interactive w); [|exact O].
    apply owned_dispatch; [|exact O].
    unfold handleRoomChange. now destruct (room_id_ok _).
  - destruct (listener w) as [r|]; [|exact O].
    destruct docSnapshot as [data|]; simpl.
    + apply owned_dispatch; [|exact O]. now destruct (_ && _).
    + unfold handleSaveCode. destruct (_ || _); simpl;
        now apply owned_dispatch.
  - destruct (listener w) as [r|]; [|exact O].
    change (timers_owned (dispatch (onSnapshot_error r) w) = true).
    now apply owned_dispatch.
  - unfold settle. destruct (inflight w !! i); [|exact O].
    apply owned_dispatch; [now destruct fulfilled | exact O].
  - unfold advance. change (timers_owned (fold_left fire
        (in_order (List.filter (is_due (now w + d)) (timers w))) w) = true).
    now apply owned_fire.
  - exact O.
Qed.

Lemma run_owned (es : list Event) (w : World) :
  timers_owned w = true -> timers_owned (run w es) = true.
Proof.
  revert w. induction es as [|e es IH]; intros w O; [exact O|].
  simpl. apply IH, step_owned, O.
Qed.

(** In every world the component can reach, the pending timeouts are owned
    by the handle. *)
Lemma reachable_owned (es : list Event) :
  timers_owned (run initial_world es) = true.
Proof. apply run_owned. reflexivity. Qed.

(** ** Switching room and unmounting *)

Lemma deps_differ (a b : State) :
  snippetId a <> snippetId b -> deps_same a b = false.
Proof.
  intros H. unfold deps_same. apply bool_decide_eq_false. intros (_ & _ & E).
  contradiction.
Qed.

(** The room input's [onChange] with a value that is not the current room:
    the effect runs again, its previous listener is dropped and a listener
    for the new room is installed; the timers are not touched. *)
Lemma room_change_world (w : World) (newRoom : jsstring) :
  ready w = true -> newRoom <> snippetId (react w) ->
  step w (RoomInputChange newRoom) =
    mkWorld
      (update (setStatus (js "Subscribing to room: " ++ newRoom))
         (update (setSnippetId newRoom) (react w)))
      true (now w) (timers w) (saveTimer w) (next_timer w)
      (Some (update (setSnippetId newRoom) (react w)))
      (inflight w) (issued w) (store w).
Proof.
  intros R Hne. destruct (ready_parts w R) as (M & I & S).
  simpl. unfold interactive. rewrite M, I. simpl.
  destruct w as [s m t ts h n l fl iss st]. simpl in *. subst m.
  unfold dispatch, exec_all. simpl. unfold set_state. simpl.
  unfold rerender. simpl.
  rewrite deps_differ by (simpl; congruence). simpl.
  unfold sync_effect. simpl.
  change (match db s with Some _ => false | None => true end || falsy_str (userId s))
    with (match db (update (setSnippetId newRoom) s) with
          | Some _ => false | None => true end
          || falsy_str (userId (update (setSnippetId newRoom) s))).
  rewrite (signed_in_guard (update (setSnippetId newRoom) s)) by exact S.
  simpl. unfold set_state. simpl. rewrite I. reflexivity.
Qed.

(** A world whose only pending timeout is due: the timeout runs, its closure
    commits, no timeout is left. *)
Lemma due_timer_fires (w : World) (tm : Timer) (d : N) :
  timers w = [tm] -> (deadline tm <= now w + d)%N ->
  issued (step w (Tick d)) = issued w ++ writes_of (run_callback (callback tm))
  /\ timers (step w (Tick d)) = [].
Proof.
  intros Ht Hd. simpl. unfold advance. rewrite Ht. simpl. unfold is_due.
  replace (N.leb (deadline tm) (now w + d)) with true
    by (symmetry; apply N.leb_le; exact Hd).
  simpl. unfold fire. split.
  - rewrite issued_dispatch. reflexivity.
  - destruct (timers_dispatch (run_callback (callback tm))
                (with_now (N.max (now w) (deadline tm))
                   (with_timers (cancel (Some (timer_id tm)) (timers w)) w)))
      as [-> _]; [reflexivity|].
    simpl. rewrite Ht. simpl. now rewrite Nat.eqb_refl.
Qed.







(** ** What the snapshot callback reads

    The callback handed to [onSnapshot] is the one of the render in which the
    effect ran.  The effect runs again only when [db], [userId] or
    [snippetId] changes, so between two such changes the callback keeps the
    [isSaving] and the [code] of that render. *)

Lemma snapshot_guard_open (w : World) (r : State) (data : gmap string Value) :
  listener w = Some r -> isSaving r = false ->
  truthy (content_of data) = true -> mounted w = true ->
  code (react (step w (Snapshot (Some data)))) = content_of data.
Proof.
  intros L G T M. simpl. rewrite L. simpl. rewrite G, T. simpl.
  destruct w as [s m t ts h n l fl iss st]. simpl in *. subst m.
  unfold dispatch, exec_all. simpl. unfold set_state. simpl.
  rewrite rerender_same_deps; [reflexivity|]. simpl.
  unfold deps_same. apply bool_decide_eq_true. simpl. auto.
Qed.

Lemma snapshot_guard_shut (w : World) (r : State) (data : gmap string Value) :
  listener w = Some r -> isSaving r = true ->
  step w (Snapshot (Some data)) = w.
Proof.
  intros L G. simpl. rewrite L. simpl. rewrite G. simpl. apply dispatch_nil.
Qed.

Lemma absent_snapshot_commit (w : World) (r : State) :
  listener w = Some r -> signed_in r = true ->
  issued (step w (Snapshot None))
    = issued w ++ [mkWrite (getSnippetDocRef (db r) (snippetId r))
                           (payload (code r) (userId r)) true r]
  /\ timers (step w (Snapshot None)) = timers w.
Proof.
  intros L S. simpl. rewrite L. simpl.
  unfold handleSaveCode. rewrite (signed_in_guard r S). split.
  - rewrite issued_dispatch. reflexivity.
  - now destruct (timers_dispatch
        ((setCode (code r) :: saveToFirestore r (code r))
           ++ [setStatus (js "New collaboration room created: " ++ snippetId r)]) w).
Qed.

(** ** Frame facts: what a call leaves alone *)

Lemma mounted_exec (w : World) (c : Cmd) : mounted (exec w c) = mounted w.
Proof. destruct c; simpl; unfold set_state; destruct (mounted w) eqn:M; auto. Qed.

Lemma listener_exec (w : World) (c : Cmd) : listener (exec w c) = listener w.
Proof. destruct c; simpl; unfold set_state; destruct (mounted w); auto. Qed.

Lemma mounted_exec_all (cmds : list Cmd) (w : World) :
  mounted (exec_all cmds w) = mounted w.
Proof.
  revert w. induction cmds as [|c cmds IH]; intros w; [reflexivity|].
  change (exec_all (c :: cmds) w) with (exec_all cmds (exec w c)).
  now rewrite IH, mounted_exec.
Qed.

Lemma listener_exec_all (cmds : list Cmd) (w : World) :
  listener (exec_all cmds w) = listener w.
Proof.
  revert w. induction cmds as [|c cmds IH]; intros w; [reflexivity|].
  change (exec_all (c :: cmds) w) with (exec_all cmds (exec w c)).
  now rewrite IH, listener_exec.
Qed.

Lemma react_exec_unmounted (w : World) (c : Cmd) :
  mounted w = false -> react (exec w c) = react w.
Proof. intros M. destruct c; simpl; unfold set_state; now rewrite ?M. Qed.

Lemma react_exec_all_unmounted (cmds : list Cmd) (w : World) :
  mounted w = false -> react (exec_all cmds w) = react w.
Proof.
  revert w. induction cmds as [|c cmds IH]; intros w M; [reflexivity|].
  change (exec_all (c :: cmds) w) with (exec_all cmds (exec w c)).
  rewrite IH by now rewrite mounted_exec. now apply react_exec_unmounted.
Qed.

Lemma deps_exec (w : World) (c : Cmd) :
  touches_deps c = false ->
  db (react (exec w c)) = db (react w)
  /\ userId (react (exec w c)) = userId (react w)
  /\ snippetId (react (exec w c)) = snippetId (react w).
Proof.
  destruct c; simpl; try discriminate; intros _;
    unfold set_state; destruct (mounted w); auto.
Qed.

Lemma deps_exec_all (cmds : list Cmd) (w : World) :
  forallb (fun c => negb (touches_deps c)) cmds = true ->
  db (react (exec_all cmds w)) = db (react w)
  /\ userId (react (exec_all cmds w)) = userId (react w)
  /\ snippetId (react (exec_all cmds w)) = snippetId (react w).
Proof.
  revert w. induction cmds as [|c cmds IH]; intros w H; [auto|].
  simpl in H. apply andb_true_iff in H as [Hc H]. apply negb_true_iff in Hc.
  change (exec_all (c :: cmds) w) with (exec_all cmds (exec w c)).
  destruct (IH (exec w c) H) as (-> & -> & ->). now apply deps_exec.
Qed.

(** A handler that sets neither [db], [userId] nor [snippetId] does not make
    the effect run: the world after it is the world after its calls. *)
Lemma dispatch_without_deps (cmds : list Cmd) (w : World) :
  forallb (fun c => negb (touches_deps c)) cmds = true ->
  dispatch cmds w = exec_all cmds w.
Proof.
  intros H. unfold dispatch. apply rerender_same_deps.
  destruct (deps_exec_all cmds w H) as (E1 & E2 & E3).
  unfold deps_same. apply bool_decide_eq_true. auto.
Qed.

Lemma handleSaveCode_keeps_deps (r : State) (newCode : Value) (debounce : bool) :
  forallb (fun c => negb (touches_deps c)) (handleSaveCode r newCode debounce) = true.
Proof.
  unfold handleSaveCode. destruct (_ || _); [reflexivity|]. now destruct debounce.
Qed.

Lemma onSnapshot_keeps_deps (r : State) (d : option (gmap string Value)) :
  forallb (fun c => negb (touches_deps c)) (onSnapshot_next r d) = true.
Proof.
  destruct d as [data|]; simpl.
  - now destruct (_ && _).
  - rewrite forallb_app, handleSaveCode_keeps_deps. reflexivity.
Qed.

Lemma settled_keeps_deps (r : State) (fulfilled : bool) :
  forallb (fun c => negb (touches_deps c)) (saveToFirestore_settled r fulfilled) = true.
Proof. now destruct fulfilled. Qed.

Lemma fire_keeps_subscription (l : list Timer) (w : World) :
  listener (fold_left fire l w) = listener w
  /\ db (react (fold_left fire l w)) = db (react w)
  /\ userId (react (fold_left fire l w)) = userId (react w)
  /\ snippetId (react (fold_left fire l w)) = snippetId (react w).
Proof.
  revert w. induction l as [|tm l IH]; intros w; [auto|].
  simpl. destruct (IH (fire w tm)) as (-> & -> & -> & ->).
  unfold fire. rewrite dispatch_without_deps by reflexivity.
  rewrite listener_exec_all.
  destruct (deps_exec_all (run_callback (callback tm))
              (with_now (N.max (now w) (deadline tm))
                 (with_timers (cancel (Some (timer_id tm)) (timers w)) w)))
    as (-> & -> & ->); [reflexivity|]. auto.
Qed.

(** X1: an edit, a notification, a write that settles and the passing of
    time never replace the listener and never change the session or the
    room: the callback of the listener stays the one of the render that
    installed it. *)
Theorem subscription_outlives_renders (w : World) (e : Event) :
  keeps_subscription e = true ->
  listener (step w e) = listener w
  /\ db (react (step w e)) = db (react w)
  /\ userId (react (step w e)) = userId (react w)
  /\ snippetId (react (step w e)) = snippetId (react w).
Proof.
  intros K. destruct e; try discriminate; simpl.
  - destruct (interactive w); [|auto].
    rewrite dispatch_without_deps by apply handleSaveCode_keeps_deps.
    rewrite listener_exec_all. split; [reflexivity|].
    apply deps_exec_all, handleSaveCode_keeps_deps.
  - destruct (listener w) as [r|] eqn:L; [|auto].
    rewrite dispatch_without_deps by apply onSnapshot_keeps_deps.
    rewrite listener_exec_all. split; [exact L|].
    apply deps_exec_all, onSnapshot_keeps_deps.
  - unfold settle. destruct (inflight w !! i) as [p|]; [|auto].
    rewrite dispatch_without_deps by apply settled_keeps_deps.
    rewrite listener_exec_all. split; [reflexivity|].
    match goal with
    | |- context [exec_all ?c ?x] =>
        destruct (deps_exec_all c x (settled_keeps_deps _ _)) as (-> & -> & ->)
    end. auto.
  - unfold advance. apply fire_keeps_subscription.
Qed.

(** ** The listener belongs to the live session and room *)

Lemma guard_signed_in (s : State) :
  (match db s with None => true | Some _ => false end || falsy_str (userId s)) = false ->
  signed_in s = true.
Proof.
  unfold signed_in. destruct (db s); [|discriminate]. simpl. now intros ->.
Qed.

Lemma listener_current_dispatch (cmds : list Cmd) (w : World) :
  listener_current w -> listener_current (dispatch cmds w).
Proof.
  intros H. unfold dispatch, rerender.
  pose proof (listener_exec_all cmds w) as L.
  pose proof (mounted_exec_all cmds w) as M.
  set (w' := exec_all cmds w) in *.
  destruct (mounted w') eqn:Mw'; simpl.
  - destruct (deps_same (react w) (react w')) eqn:D; simpl.
    + unfold listener_current in *. rewrite L.
      destruct (listener w) as [r|]; [|exact I].
      apply bool_decide_eq_true in D. destruct D as (D1 & D2 & D3).
      destruct H as (_ & S & E1 & E2 & E3). repeat split; congruence.
    + unfold sync_effect.
      destruct (_ || _) eqn:G; [exact I|].
      unfold listener_current. simpl. unfold set_state. simpl.
      rewrite Mw'. simpl. repeat split; auto using guard_signed_in.
  - unfold listener_current in *. rewrite L.
    destruct (listener w) as [r|]; [|exact I].
    destruct H as (Hm & _). congruence.
Qed.

Lemma listener_current_fire (l : list Timer) (w : World) :
  listener_current w -> listener_current (fold_left fire l w).
Proof.
  revert w. induction l as [|tm l IH]; intros w H; [exact H|].
  simpl. apply IH. unfold fire. apply listener_current_dispatch. exact H.
Qed.

Lemma listener_current_step (w : World) (e : Event) :
  listener_current w -> listener_current (step w e).
Proof.
  intros H. destruct e; simpl.
  - now apply listener_current_dispatch.
  - destruct (db (react w)); [now apply listener_current_dispatch | exact H].
  - destruct (interactive w); [now apply listener_current_dispatch | exact H].
  - destruct (interactive w); [now apply listener_current_dispatch | exact H].
  - destruct (interactive w); [now apply listener_current_dispatch | exact H].
  - destruct (listener w) eqn:L; [now apply listener_current_dispatch | exact H].
  - destruct (listener w) eqn:L; [exact I | exact H].
  - unfold settle. destruct (inflight w !! i); [|exact H].
    apply listener_current_dispatch. exact H.
  - unfold advance.
    change (listener_current (fold_left fire
              (in_order (List.filter (is_due (now w + d)) (timers w))) w)).
    now apply listener_current_fire.
  - exact I.
Qed.

Lemma listener_current_run (es : list Event) (w : World) :
  listener_current w -> listener_current (run w es).
Proof.
  revert w. induction es as [|e es IH]; intros w H; [exact H|].
  simpl. apply IH, listener_current_step, H.
Qed.

(** X2: in every world the component can reach there is at most the one
    listener, and when there is one the component is mounted and the
    listener was installed by a render that had the live [db], the live
    [userId] (both set) and the live room. *)
Theorem reachable_listener_current (es : list Event) :
  listener_current (run initial_world es).
Proof. apply listener_current_run. exact I. Qed.

(** ** Where writes come from *)

(** X3: [setDoc] is called only when a timeout runs or when a notification
    reports the document absent; no other event makes a write. *)
Theorem writes_only_from_timer_or_absence (w : World) (e : Event) :
  may_write e = false -> issued (step w e) = issued w.
Proof.
  intros H. destruct e; try discriminate; simpl.
  - rewrite issued_dispatch. destruct ok; simpl; apply app_nil_r.
  - destruct (db (react w)); [|reflexivity].
    rewrite issued_dispatch. destruct user; simpl; apply app_nil_r.
  - destruct (interactive w); [|reflexivity]. rewrite issued_dispatch.
    unfold handleSaveCode. destruct (_ || _); simpl; apply app_nil_r.
  - destruct (interactive w); [|reflexivity]. rewrite issued_dispatch.
    simpl. apply app_nil_r.
  - destruct (interactive w); [|reflexivity]. rewrite issued_dispatch.
    unfold handleRoomChange. destruct (room_id_ok _); simpl; apply app_nil_r.
  - destruct docSnapshot as [data|]; [|discriminate].
    destruct (listener w); [|reflexivity]. rewrite issued_dispatch.
    simpl. destruct (_ && _); simpl; apply app_nil_r.
  - destruct (listener w); [|reflexivity]. simpl. rewrite issued_dispatch.
    simpl. apply app_nil_r.
  - unfold settle. destruct (inflight w !! i); [|reflexivity].
    rewrite issued_dispatch. destruct fulfilled; simpl; apply app_nil_r.
  - reflexivity.
Qed.

(** ** One pending timeout at most *)

Lemma filter_length_le (f : Timer -> bool) (ts : list Timer) :
  length (List.filter f ts) <= length ts.
Proof.
  induction ts as [|tm ts IH]; simpl; [lia|]. destruct (f tm); simpl; lia.
Qed.

Lemma fire_timers_le (l : list Timer) (w : World) :
  length (timers (fold_left fire l w)) <= length (timers w).
Proof.
  revert w. induction l as [|tm l IH]; intros w; [simpl; lia|].
  simpl. etransitivity; [apply IH|].
  unfold fire.
  destruct (timers_dispatch (run_callback (callback tm))
              (with_now (N.max (now w) (deadline tm))
                 (with_timers (cancel (Some (timer_id tm)) (timers w)) w)))
    as [-> _]; [reflexivity|].
  simpl. apply filter_length_le.
Qed.

Lemma step_single_timer (w : World) (e : Event) :
  timers_owned w = true -> length (timers w) <= 1 ->
  length (timers (step w e)) <= 1.
Proof.
  intros O H. destruct e; simpl.
  - destruct (timers_dispatch (init_effect ok) w) as [-> _];
      [now destruct ok | exact H].
  - destruct (db (react w)); [|exact H].
    destruct (timers_dispatch (onAuthStateChanged_cb user) w) as [-> _];
      [now destruct user | exact H].
  - destruct (interactive w); [|exact H].
    unfold handleSaveCode. destruct (_ || _); [now rewrite dispatch_nil|].
    unfold dispatch.
    match goal with
    | |- context [rerender ?b ?x] => destruct (timers_rerender b x) as [-> _]
    end.
    unfold exec_all. simpl. rewrite length_app. simpl.
    replace (saveTimer (set_state (update (setCode (VStr value))) w)) with (saveTimer w)
      by (unfold set_state; destruct (mounted w); reflexivity).
    rewrite timers_set_state, (cancel_owned w O). simpl. lia.
  - destruct (interactive w); [|exact H].
    destruct (timers_dispatch (roomInput_onChange value) w) as [-> _];
      [reflexivity | exact H].
  - destruct (interactive w); [|exact H].
    destruct (timers_dispatch (handleRoomChange value) w) as [-> _]; [|exact H].
    unfold handleRoomChange. now destruct (room_id_ok _).
  - destruct (listener w) as [r|]; [|exact H].
    destruct (timers_dispatch (onSnapshot_next r docSnapshot) w) as [-> _]; [|exact H].
    destruct docSnapshot as [data|]; simpl.
    + now destruct (_ && _).
    + unfold handleSaveCode. now destruct (_ || _).
  - destruct (listener w) as [r|]; [|exact H]. simpl.
    destruct (timers_dispatch (onSnapshot_error r) w) as [-> _];
      [reflexivity | exact H].
  - unfold settle. destruct (inflight w !! i) as [p|]; [|exact H].
    match goal with
    | |- context [dispatch ?c ?x] =>
        destruct (timers_dispatch c x) as [-> _]; [now destruct fulfilled | exact H]
    end.
  - unfold advance. simpl. etransitivity; [apply fire_timers_le | exact H].
  - exact H.
Qed.

(** X4: in every world the component can reach at most one debounce timeout
    is pending, and it is the one [window.saveTimer] refers to. *)
Theorem reachable_single_timer (es : list Event) :
  length (timers (run initial_world es)) <= 1
  /\ timers_owned (run initial_world es) = true.
Proof.
  assert (G : forall es' w,
             timers_owned w = true -> length (timers w) <= 1 ->
             length (timers (run w es')) <= 1 /\ timers_owned (run w es') = true).
  { induction es' as [|e es' IH]; intros w O H; [auto|].
    simpl. apply IH; [now apply step_owned | now apply step_single_timer]. }
  apply G; [reflexivity | simpl; lia].
Qed.

(** ** The main view, once shown *)

Lemma shown_exec (w : World) (c : Cmd) :
  hides_editor c = false -> isInitialized (react w) = true ->
  isInitialized (react (exec w c)) = true.
Proof.
  intros Hc H. destruct c; simpl; unfold set_state; destruct (mounted w);
    simpl; try exact H.
  destruct b; [reflexivity | discriminate].
Qed.

Lemma shown_exec_all (cmds : list Cmd) (w : World) :
  forallb (fun c => negb (hides_editor c)) cmds = true ->
  isInitialized (react w) = true ->
  isInitialized (react (exec_all cmds w)) = true.
Proof.
  revert w. induction cmds as [|c cmds IH]; intros w H S; [exact S|].
  simpl in H. apply andb_true_iff in H as [Hc H]. apply negb_true_iff in Hc.
  change (exec_all (c :: cmds) w) with (exec_all cmds (exec w c)).
  apply IH; [exact H | now apply shown_exec].
Qed.

Lemma shown_dispatch (cmds : list Cmd) (w : World) :
  forallb (fun c => negb (hides_editor c)) cmds = true ->
  isInitialized (react w) = true ->
  isInitialized (react (dispatch cmds w)) = true.
Proof.
  intros H S. pose proof (shown_exec_all cmds w H S) as S'.
  unfold dispatch, rerender, sync_effect.
  destruct (mounted (exec_all cmds w) && _); [|exact S'].
  destruct (_ || _); [exact S'|].
  apply shown_exec; [reflexivity | exact S'].
Qed.

Lemma shown_fire (l : list Timer) (w : World) :
  isInitialized (react w) = true ->
  isInitialized (react (fold_left fire l w)) = true.
Proof.
  revert w. induction l as [|tm l IH]; intros w S; [exact S|].
  simpl. apply IH. unfold fire. apply shown_dispatch; [reflexivity | exact S].
Qed.

Lemma shown_step (w : World) (e : Event) :
  isInitialized (react w) = true -> isInitialized (react (step w e)) = true.
Proof.
  intros S. destruct e; simpl.
  - apply shown_dispatch; [now destruct ok | exact S].
  - destruct (db (react w)); [|exact S].
    apply shown_dispatch; [now destruct user | exact S].
  - destruct (interactive w); [|exact S]. apply shown_dispatch; [|exact S].
    unfold handleSaveCode. destruct (_ || _); reflexivity.
  - destruct (interactive w); [|exact S]. now apply shown_dispatch.
  - destruct (interactive w); [|exact S]. apply shown_dispatch; [|exact S].
    unfold handleRoomChange. now destruct (room_id_ok _).
  - destruct (listener w) as [r|]; [|exact S]. apply shown_dispatch; [|exact S].
    destruct docSnapshot as [data|]; simpl.
    + now destruct (_ && _).
    + unfold handleSaveCode. now destruct (_ || _).
  - destruct (listener w) as [r|]; [|exact S]. simpl. now apply shown_dispatch.
  - unfold settle. destruct (inflight w !! i) as [p|]; [|exact S].
    apply shown_dispatch; [now destruct fulfilled | exact S].
  - unfold advance. simpl. now apply shown_fire.
  - exact S.
Qed.

(** X5: once the component has shown its main view it never goes back to
    the loading view, whatever happens afterwards (a sign-out included):
    nothing ever sets [isInitialized] back to false. *)
Theorem main_view_stays (w : World) (es : list Event) :
  isInitialized (react w) = true ->
  isInitialized (react (run w es)) = true.
Proof.
  revert w. induction es as [|e es IH]; intros w S; [exact S|].
  simpl. apply IH, shown_step, S.
Qed.

(** ** Before anybody has signed in *)

Lemma dormant_dispatch_quiet (cmds : list Cmd) (w : World) :
  forallb (fun c => match c with
                    | setDb _ | setAuth _ | setUserId None | setStatus _
                    | console_error => true
                    | _ => false
                    end) cmds = true ->
  dormant w -> dormant (dispatch cmds w).
Proof.
  intros H D.
  assert (E : dormant (exec_all cmds w)).
  { revert w D. induction cmds as [|c cmds IH]; intros w D; [exact D|].
    simpl in H. apply andb_true_iff in H as [Hc H].
    change (exec_all (c :: cmds) w) with (exec_all cmds (exec w c)).
    apply (IH H). destruct D as (D1 & D2 & D3 & D4 & D5 & D6).
    unfold dormant.
    destruct c as [| |u| | | | | | | | |]; try discriminate;
      try (destruct u; [discriminate|]);
      simpl; unfold set_state; destruct (mounted w); simpl; auto 10. }
  unfold dispatch, rerender, sync_effect.
  destruct (mounted (exec_all cmds w) && _); [|exact E].
  destruct E as (D1 & D2 & D3 & D4 & D5 & D6).
  rewrite D2. simpl. rewrite orb_true_r.
  unfold dormant. simpl. auto 10.
Qed.

Lemma dormant_step (w : World) (e : Event) :
  is_sign_in e = false -> dormant w -> dormant (step w e).
Proof.
  intros H D. pose proof D as (D1 & D2 & D3 & D4 & D5 & D6).
  destruct e; simpl.
  - apply dormant_dispatch_quiet; [now destruct ok | exact D].
  - destruct user; [discriminate|].
    destruct (db (react w)); [|exact D].
    now apply dormant_dispatch_quiet.
  - unfold interactive. now rewrite D1, andb_false_r.
  - unfold interactive. now rewrite D1, andb_false_r.
  - unfold interactive. now rewrite D1, andb_false_r.
  - now rewrite D3.
  - now rewrite D3.
  - unfold settle. now rewrite D4.
  - unfold advance. rewrite D6. simpl. unfold dormant. simpl. auto 10.
  - unfold dormant. simpl. auto 10.
Qed.

(** X6: as long as no user has been signed in (the initialisation failed,
    the authentication has not answered yet or has answered with no user),
    the component stays on its loading view: no editor event is taken, no
    listener is installed, no timeout is set and nothing is written. *)
Theorem nothing_before_sign_in (es : list Event) :
  forallb (fun e => negb (is_sign_in e)) es = true ->
  interactive (run initial_world es) = false
  /\ listener (run initial_world es) = None
  /\ timers (run initial_world es) = []
  /\ issued (run initial_world es) = [].
Proof.
  intros H.
  assert (G : forall es' w,
             forallb (fun e => negb (is_sign_in e)) es' = true ->
             dormant w -> dormant (run w es')).
  { induction es' as [|e es' IH]; intros w He D; [exact D|].
    simpl in He. apply andb_true_iff in He as [He1 He2].
    apply negb_true_iff in He1.
    simpl. apply (IH _ He2), dormant_step; assumption. }
  destruct (G es initial_world H) as (D1 & D2 & D3 & D4 & D5 & D6).
  { unfold dormant. simpl. auto 10. }
  unfold interactive. rewrite D1, andb_false_r. auto.
Qed.

(** ** After the component is unmounted *)

Lemma unmounted_dispatch (cmds : list Cmd) (w : World) :
  mounted w = false ->
  mounted (dispatch cmds w) = false
  /\ react (dispatch cmds w) = react w
  /\ listener (dispatch cmds w) = listener w.
Proof.
  intros M. unfold dispatch, rerender.
  rewrite mounted_exec_all, M. simpl.
  rewrite mounted_exec_all, listener_exec_all, react_exec_all_unmounted; auto.
Qed.

Lemma unmounted_fire (l : list Timer) (w : World) :
  mounted w = false ->
  mounted (fold_left fire l w) = false
  /\ react (fold_left fire l w) = react w
  /\ listener (fold_left fire l w) = listener w.
Proof.
  revert w. induction l as [|tm l IH]; intros w M; [auto|].
  simpl. unfold fire at 2 4 6.
  match goal with
  | |- context [fold_left fire l (dispatch ?c ?x)] =>
      destruct (unmounted_dispatch c x M) as (M' & R' & L');
      destruct (IH (dispatch c x) M') as (-> & -> & ->)
  end.
  rewrite R', L'. auto.
Qed.

Lemma unmounted_step (w : World) (e : Event) :
  mounted w = false -> listener w = None ->
  mounted (step w e) = false /\ react (step w e) = react w
  /\ listener (step w e) = None.
Proof.
  intros M L.
  assert (I : interactive w = false) by (unfold interactive; now rewrite M).
  destruct e; simpl; rewrite ?I, ?L; auto.
  - destruct (unmounted_dispatch (init_effect ok) w M) as (-> & -> & ->). auto.
  - destruct (db (react w)); [|auto].
    destruct (unmounted_dispatch (onAuthStateChanged_cb user) w M) as (-> & -> & ->).
    auto.
  - unfold settle. destruct (inflight w !! i) as [p|]; [|auto].
    match goal with
    | |- context [dispatch ?c ?x] =>
        destruct (unmounted_dispatch c x M) as (-> & -> & ->)
    end. auto.
  - unfold advance. simpl.
    destruct (unmounted_fire (in_order (List.filter (is_due (now w + d)) (timers w))) w M)
      as (-> & -> & ->). auto.
Qed.

(** X7: unmounting is final.  After it no event changes the state of the
    component, no listener is ever installed again, and the editor and the
    room input take no event. *)
Theorem unmount_is_final (w : World) (es : list Event) :
  mounted (run (step w Unmount) es) = false
  /\ react (run (step w Unmount) es) = react w
  /\ listener (run (step w Unmount) es) = None
  /\ interactive (run (step w Unmount) es) = false.
Proof.
  assert (G : forall es' w',
             mounted w' = false -> listener w' = None ->
             mounted (run w' es') = false /\ react (run w' es') = react w'
             /\ listener (run w' es') = None).
  { induction es' as [|e es' IH]; intros w' M L; [auto|].
    simpl. destruct (unmounted_step w' e M L) as (M' & R' & L').
    destruct (IH (step w' e) M' L') as (-> & -> & ->). auto. }
  destruct (G es (step w Unmount)) as (M & R & L); [reflexivity | reflexivity |].
  unfold interactive. rewrite M, R, L. auto.
Qed.

(** ** Losing the session *)

Lemma sign_out_world (w : World) :
  ready w = true ->
  step w (AuthStateChanged None)
  = mkWorld (update (setStatus (js "Authentication failed."))
               (update (setUserId None) (react w)))
            true (now w) (timers w) (saveTimer w) (next_timer w)
            None (inflight w) (issued w) (store w).
Proof.
  intros R. destruct (ready_parts w R) as (M & I & S).
  simpl. unfold signed_in in S.
  destruct w as [s m t ts h n l fl iss st]. simpl in *. subst m.
  destruct (db s) as [d|] eqn:Ed; [|discriminate].
  destruct (userId s) as [u|] eqn:Eu; [|discriminate].
  unfold dispatch, exec_all. simpl. unfold set_state. simpl.
  unfold rerender. simpl.
  replace (deps_same s _) with false.
  2:{ symmetry. unfold deps_same. apply bool_decide_eq_false. simpl.
      rewrite Eu. intros (_ & E & _). discriminate. }
  simpl. unfold sync_effect. simpl. rewrite orb_true_r. simpl.
  unfold with_listener, with_react. simpl. now rewrite Ed.
Qed.

(** X8: when the authentication reports that there is no user any more, the
    listener is removed and [status] says so, but the main view stays: the
    editor is still on screen, and every edit made in it is dropped (the
    buffer is not updated, no timeout is set, nothing is written). *)
Theorem sign_out_silences_editor (w : World) (c : jsstring) :
  ready w = true ->
  listener (step w (AuthStateChanged None)) = None
  /\ userId (react (step w (AuthStateChanged None))) = None
  /\ status (react (step w (AuthStateChanged None))) = js "Authentication failed."
  /\ interactive (step w (AuthStateChanged None)) = true
  /\ step (step w (AuthStateChanged None)) (EditorChange c)
     = step w (AuthStateChanged None).
Proof.
  intros R. destruct (ready_parts w R) as (M & I & S).
  rewrite (sign_out_world w R). simpl. repeat split; try reflexivity.
  - unfold interactive. simpl. exact I.
  - unfold interactive. simpl. rewrite I. simpl.
    unfold handleSaveCode. simpl. rewrite orb_true_r. apply dispatch_nil.
Qed.

(** X16: a timeout that is pending when the user is signed out is not
    cancelled: at its deadline it writes the edit all the same, to the room
    and in the name of the user of the render in which the edit was made. *)
Theorem pending_edit_survives_sign_out (w : World) (c : jsstring) (d : N) :
  ready w = true ->
  timers_owned w = true ->
  (quiet_period <= d)%N ->
  userId (react (run w [EditorChange c; AuthStateChanged None])) = None
  /\ map request (issued (run w [EditorChange c; AuthStateChanged None; Tick d]))
     = map request (issued w) ++ [commit_request (react w) (VStr c)].
Proof.
  intros R O Hd.
  pose proof (edit_arms w c R O) as (R1 & I1 & _).
  change (run w [EditorChange c; AuthStateChanged None; Tick d])
    with (step (run w [EditorChange c; AuthStateChanged None]) (Tick d)).
  change (run w [EditorChange c; AuthStateChanged None])
    with (step (step w (EditorChange c)) (AuthStateChanged None)).
  rewrite (sign_out_world _ R1).
  rewrite (editor_change_world w c R), (cancel_owned w O). simpl app.
  set (tm := mkTimer (next_timer w) (now w + quiet_period) (mkCallback (react w) (VStr c))).
  split; [reflexivity|].
  match goal with
  | |- context [step ?x (Tick d)] =>
      destruct (due_timer_fires x tm d) as [Hi _];
        [reflexivity | simpl; lia |]; rewrite Hi
  end.
  rewrite map_app. reflexivity.
Qed.

(** ** Two writes in flight *)

(** X9: [isSaving] is a flag, not a count: when two writes are pending, the
    first one to settle lowers it although the other is still in flight. *)
Theorem flag_lowered_while_write_pending
    (w : World) (i : nat) (p : Write) (fulfilled : bool) :
  mounted w = true ->
  inflight w !! i = Some p ->
  2 <= length (inflight w) ->
  isSaving (react (step w (Settle i fulfilled))) = false
  /\ inflight (step w (Settle i fulfilled)) <> [].
Proof.
  intros M H L. rewrite (settle_world w i p fulfilled M H). simpl.
  split; [reflexivity|]. intros E.
  assert (length (delete i (inflight w)) = 0) by now rewrite E.
  rewrite length_delete in * by eauto. lia.
Qed.

(** ** The room input *)

(** X10: the room input's [onChange] sets the room to what is typed, before
    any validation.  For a value that [doc()] accepts (not empty, no slash)
    but [handleRoomChange] rejects, such as one with a blank or a
    punctuation mark: the effect subscribes to the document of that value at
    once, and the blur that follows only writes the validation message to
    [status]; the rejected value stays the room and the listener stays on
    its document. *)
Theorem typed_room_is_not_validated (w : World) (value : jsstring) :
  ready w = true ->
  value <> snippetId (react w) ->
  doc_accepts value = true ->
  room_id_ok (trim value) = false ->
  snippetId (react (run w [RoomInputChange value; RoomInputBlur value])) = value
  /\ (exists r,
        listener (run w [RoomInputChange value; RoomInputBlur value]) = Some r
        /\ snippetId r = value)
  /\ status (react (run w [RoomInputChange value; RoomInputBlur value]))
     = js "Room ID must be alphanumeric/hyphenated and non-empty.".
Proof.
  intros R Hne _ Hbad. destruct (ready_parts w R) as (M & I & S).
  change (run w [RoomInputChange value; RoomInputBlur value])
    with (step (step w (RoomInputChange value)) (RoomInputBlur value)).
  rewrite (room_change_world w value R Hne).
  simpl. unfold interactive. simpl. rewrite I. simpl.
  unfold handleRoomChange. rewrite Hbad.
  rewrite dispatch_without_deps by reflexivity.
  unfold exec_all. simpl. unfold set_state. simpl.
  repeat split. eexists. split; reflexivity.
Qed.

Lemma isWhiteSpace_cases (c : N) :
  isWhiteSpace c = true -> ((9 <= c <= 13)%N \/ c = 32%N \/ (160 <= c)%N).
Proof.
  unfold isWhiteSpace. simpl.
  rewrite !orb_true_iff, !andb_true_iff, !N.eqb_eq, !N.leb_le. lia.
Qed.

Lemma room_char_not_blank (c : N) : room_char c -> isWhiteSpace c = false.
Proof.
  intros H. destruct (isWhiteSpace c) eqn:E; [|reflexivity].
  apply isWhiteSpace_cases in E. unfold room_char in H. lia.
Qed.

Lemma trimStart_head (c : N) (s : jsstring) :
  isWhiteSpace c = false -> trimStart (c :: s) = c :: s.
Proof. intros H. simpl. now rewrite H. Qed.

Lemma trim_fixed (s : jsstring) : Forall room_char s -> trim s = s.
Proof.
  intros F. unfold trim, trimEnd.
  assert (T : forall l, Forall room_char l -> trimStart l = l).
  { intros l Fl. destruct Fl as [|c l Hc Fl]; [reflexivity|].
    apply trimStart_head, room_char_not_blank, Hc. }
  rewrite (T s F), (T (rev s)); [apply rev_involutive|].
  apply List.Forall_rev. exact F.
Qed.

(** X11: an identifier that [handleRoomChange] accepts is kept as it is by
    [trim], so submitting the accepted room again makes the same call; and a
    blur whose trimmed value is the current room changes nothing at all: no
    new subscription, [status] untouched. *)
Theorem blur_on_current_room_is_noop (w : World) (value : jsstring) :
  ascii_table toUpperCase ->
  room_id_ok (trim value) = true ->
  handleRoomChange (trim value) = handleRoomChange value
  /\ (trim value = snippetId (react w) -> step w (RoomInputBlur value) = w).
Proof.
  intros T H.
  assert (F : trim (trim value) = trim value).
  { apply trim_fixed. apply (room_id_ok_valid T) in H. apply H. }
  split.
  - unfold handleRoomChange. now rewrite F.
  - intros E. simpl. destruct (interactive w) eqn:I; [|reflexivity].
    unfold handleRoomChange. rewrite H, E.
    unfold dispatch, exec_all. simpl.
    assert (U : set_state (update (setSnippetId (snippetId (react w)))) w = w).
    { unfold set_state. destruct (mounted w) eqn:M; [|reflexivity].
      destruct w as [s m t ts h n l fl iss st]. destruct s. reflexivity. }
    rewrite U. apply rerender_same_deps, deps_same_refl.
Qed.

(** X12: a candidate whose trimmed form contains a dot, a slash, a
    backslash, an underscore, a blank or any unit outside ASCII is rejected:
    the only call made is the validation message. *)
Theorem path_characters_rejected (candidate : jsstring) (c : N) :
  ascii_table toUpperCase ->
  In c (trim candidate) ->
  (c = 46 \/ c = 47 \/ c = 92 \/ c = 95 \/ c = 32 \/ 128 <= c)%N ->
  handleRoomChange candidate
  = [setStatus (js "Room ID must be alphanumeric/hyphenated and non-empty.")].
Proof.
  intros T Hin Hc. unfold handleRoomChange.
  destruct (room_id_ok (trim candidate)) eqn:E; [|reflexivity].
  apply (room_id_ok_valid T) in E. destruct E as (_ & _ & F).
  rewrite List.Forall_forall in F. specialize (F c Hin).
  unfold room_char in F. lia.
Qed.

(** ** Creating the room *)

(** X13: in a world the component can reach, a notification that reports
    the document absent makes exactly one write, at once; it goes to the
    document of the live room, in the name of the live user, with the code of
    the render that installed the listener; the buffer is set to that code,
    [isSaving] is raised and the pending debounce timeout is left alone. *)
Theorem room_creation_targets_live_room (es : list Event) (r : State) :
  listener (run initial_world es) = Some r ->
  map request (issued (step (run initial_world es) (Snapshot None)))
    = map request (issued (run initial_world es))
      ++ [(getSnippetDocRef (db (react (run initial_world es)))
                            (snippetId (react (run initial_world es))),
           payload (code r) (userId (react (run initial_world es))), true)]
  /\ timers (step (run initial_world es) (Snapshot None))
     = timers (run initial_world es)
  /\ code (react (step (run initial_world es) (Snapshot None))) = code r
  /\ isSaving (react (step (run initial_world es) (Snapshot None))) = true
  /\ status (react (step (run initial_world es) (Snapshot None)))
     = js "New collaboration room created: "
       ++ snippetId (react (run initial_world es)).
Proof.
  intros L. pose proof (listener_current_run es initial_world I) as C.
  set (w := run initial_world es) in *.
  unfold listener_current in C. rewrite L in C.
  destruct C as (M & S & E1 & E2 & E3).
  destruct (absent_snapshot_commit w r L S) as (Hi & Ht).
  split; [|split; [exact Ht|]].
  - rewrite Hi, map_app. simpl. unfold request. simpl. now rewrite E1, E2, E3.
  - unfold step. rewrite L.
    rewrite (dispatch_without_deps _ _ (onSnapshot_keeps_deps r None)).
    unfold onSnapshot_next, handleSaveCode. rewrite (signed_in_guard r S).
    destruct w as [s m t ts h n l fl iss st].
    cbn [mounted react] in *. subst m.
    unfold exec_all. cbn. rewrite E3. auto.
Qed.

(** ** A remote update during the quiet period *)

Lemma snapshot_applied_world (w : World) (r : State) (data : gmap string Value) :
  mounted w = true -> listener w = Some r -> isSaving r = false ->
  truthy (content_of data) = true ->
  step w (Snapshot (Some data))
  = with_react
      (update (setStatus (js "Real-time update received in room: " ++ snippetId r))
         (update (setCode (content_of data)) (react w))) w.
Proof.
  intros M L G T. simpl. rewrite L. simpl. rewrite G, T. simpl.
  rewrite dispatch_without_deps by reflexivity.
  unfold exec_all. simpl. unfold set_state. simpl. rewrite M.
  unfold set_state. simpl. rewrite M. reflexivity.
Qed.

Lemma due_timer_react (w : World) (tm : Timer) (d : N) :
  mounted w = true -> timers w = [tm] -> (deadline tm <= now w + d)%N ->
  react (step w (Tick d))
  = update (setStatus (js "Saving changes to Firestore..."))
      (update (setIsSaving true) (react w)).
Proof.
  intros M Ht Hd. simpl. unfold advance. rewrite Ht. simpl. unfold is_due.
  replace (N.leb (deadline tm) (now w + d)) with true
    by (symmetry; apply N.leb_le; exact Hd).
  simpl. unfold fire. rewrite dispatch_without_deps by reflexivity.
  unfold exec_all, run_callback, saveToFirestore. simpl.
  unfold set_state. simpl. rewrite M. unfold set_state. simpl. rewrite M.
  reflexivity.
Qed.

(** X14: a remote update that arrives during the quiet period of a local
    edit replaces the buffer but does not cancel the pending timeout: when
    the quiet period is over the content of the local edit is written all
    the same, over the remote content, while the buffer keeps showing the
    remote content. *)
Theorem pending_edit_overwrites_remote_update
    (w : World) (r : State) (data : gmap string Value) (c : jsstring) (d : N) :
  ready w = true ->
  timers_owned w = true ->
  listener w = Some r ->
  isSaving r = false ->
  truthy (content_of data) = true ->
  (quiet_period <= d)%N ->
  code (react (run w [EditorChange c; Snapshot (Some data)])) = content_of data
  /\ issued (run w [EditorChange c; Snapshot (Some data)]) = issued w
  /\ map request (issued (run w [EditorChange c; Snapshot (Some data); Tick d]))
     = map request (issued w) ++ [commit_request (react w) (VStr c)]
  /\ code (react (run w [EditorChange c; Snapshot (Some data); Tick d]))
     = content_of data.
Proof.
  intros R O L G T Hd. destruct (ready_parts w R) as (M & I & S).
  change (run w [EditorChange c; Snapshot (Some data); Tick d])
    with (step (run w [EditorChange c; Snapshot (Some data)]) (Tick d)).
  change (run w [EditorChange c; Snapshot (Some data)])
    with (step (step w (EditorChange c)) (Snapshot (Some data))).
  rewrite (editor_change_world w c R), (cancel_owned w O). simpl app.
  rewrite (snapshot_applied_world _ r data); [|reflexivity|exact L|exact G|exact T].
  set (tm := mkTimer (next_timer w) (now w + quiet_period) (mkCallback (react w) (VStr c))).
  split; [reflexivity|]. split; [reflexivity|].
  match goal with
  | |- context [step ?x (Tick d)] =>
      destruct (due_timer_fires x tm d) as [Hi _];
        [reflexivity | simpl; lia |];
      rewrite Hi;
      rewrite (due_timer_react x tm d); [|reflexivity|reflexivity|simpl; lia]
  end.
  split; [|reflexivity].
  rewrite map_app. reflexivity.
Qed.

(** ** The timer handle is shared between rooms *)

(** X15: [window.saveTimer] is one handle for all rooms.  An edit made in a
    room, followed within its quiet period by a switch to another room and
    an edit there, is never written: the second edit clears the timeout of
    the first, and the only write made goes to the new room with the second
    content. *)
Theorem edit_lost_on_room_switch
    (w : World) (c1 c2 newRoom : jsstring) (d1 d : N) :
  ready w = true ->
  timers_owned w = true ->
  newRoom <> snippetId (react w) ->
  (d1 < quiet_period)%N ->
  (quiet_period <= d)%N ->
  map request
    (issued (run w [EditorChange c1; Tick d1; RoomInputChange newRoom;
                    EditorChange c2; Tick d]))
  = map request (issued w)
    ++ [(getSnippetDocRef (db (react w)) newRoom,
         payload (VStr c2) (userId (react w)), true)]
  /\ timers (run w [EditorChange c1; Tick d1; RoomInputChange newRoom;
                    EditorChange c2; Tick d]) = [].
Proof.
  intros R O Hne H1 Hd.
  pose proof (edit_arms w c1 R O) as A.
  pose proof (pause_world w _ c1 d1 A H1) as P.
  destruct A as (R1 & I1 & S0 & id & r & Ht & Hh & E1 & E2 & E3 & E4 & E5 & E6).
  set (w1 := step w (EditorChange c1)) in *.
  set (w2 := with_now (now w1 + d1) w1).
  assert (R2 : ready w2 = true) by exact R1.
  assert (Hne2 : newRoom <> snippetId (react w2)) by (simpl; congruence).
  pose proof (room_change_world w2 newRoom R2 Hne2) as W3.
  set (w3 := step w2 (RoomInputChange newRoom)) in *.
  assert (Erun : run w [EditorChange c1; Tick d1; RoomInputChange newRoom;
                        EditorChange c2; Tick d]
                 = step (step w3 (EditorChange c2)) (Tick d)).
  { change (step (step (step (step w1 (Tick d1)) (RoomInputChange newRoom))
                   (EditorChange c2)) (Tick d)
            = step (step w3 (EditorChange c2)) (Tick d)).
    now rewrite P. }
  rewrite Erun.
  destruct (ready_parts w2 R2) as (M2 & I2 & S2).
  assert (R3 : ready w3 = true).
  { rewrite W3. subst w2. unfold ready, interactive, signed_in in *.
    simpl in *. rewrite I2. exact S2. }
  assert (O3 : timers_owned w3 = true).
  { rewrite W3. unfold timers_owned. simpl. rewrite Ht, Hh. simpl.
    rewrite bool_decide_eq_true_2; reflexivity. }
  destruct (armed_fires w3 _ c2 d (edit_arms w3 c2 R3 O3) Hd) as (Hi & Hti).
  split; [|exact Hti].
  rewrite Hi, W3. simpl. rewrite I1.
  unfold commit_request. simpl. now rewrite E4, E5.
Qed.

(** ** Signing in *)

(** X17: when the authentication reports a user (with a non-empty id that
    is not the current one) and [db] is set, the main view is shown and a
    listener is installed for the current room by a render that holds the
    new user and the buffer as it is; what [status] ends up showing is the
    subscription message of the effect, which runs after the callback. *)
Theorem sign_in_subscribes (w : World) (uid : jsstring) (d : Firestore) :
  mounted w = true ->
  db (react w) = Some d ->
  uid <> [] ->
  userId (react w) <> Some uid ->
  isInitialized (react (step w (AuthStateChanged (Some uid)))) = true
  /\ userId (react (step w (AuthStateChanged (Some uid)))) = Some uid
  /\ status (react (step w (AuthStateChanged (Some uid))))
     = js "Subscribing to room: " ++ snippetId (react w)
  /\ exists r,
       listener (step w (AuthStateChanged (Some uid))) = Some r
       /\ userId r = Some uid /\ snippetId r = snippetId (react w)
       /\ code r = code (react w) /\ isSaving r = isSaving (react w).
Proof.
  intros M Ed Hu Hne. unfold step. rewrite Ed.
  destruct w as [s m t ts h n l fl iss st]. cbn [mounted react] in *. subst m.
  unfold dispatch, exec_all, onAuthStateChanged_cb. cbn.
  unfold rerender. cbn.
  replace (deps_same s _) with false.
  2:{ symmetry. unfold deps_same. apply bool_decide_eq_false.
      cbn. intros (_ & E & _). congruence. }
  cbn. unfold sync_effect. cbn.
  rewrite Ed. destruct uid as [|u0 uid']; [contradiction|].
  cbn. repeat split. eexists. repeat split.
Qed.

(** ** Edits in separate quiet periods *)

Lemma ready_intro (w : World) :
  mounted w = true -> isInitialized (react w) = true ->
  signed_in (react w) = true -> ready w = true.
Proof. intros M I S. unfold ready, interactive. now rewrite M, I, S. Qed.

Lemma due_timer_world (w : World) (tm : Timer) (d : N) :
  mounted w = true -> timers w = [tm] -> (deadline tm <= now w + d)%N ->
  step w (Tick d)
  = mkWorld (update (setStatus (js "Saving changes to Firestore..."))
               (update (setIsSaving true) (react w)))
            true (now w + d) [] (saveTimer w) (next_timer w) (listener w)
            (inflight w ++ writes_of (run_callback (callback tm)))
            (issued w ++ writes_of (run_callback (callback tm)))
            (store w).
Proof.
  intros M Ht Hd. simpl. unfold advance. rewrite Ht. simpl. unfold is_due.
  replace (N.leb (deadline tm) (now w + d)) with true
    by (symmetry; apply N.leb_le; exact Hd).
  simpl. unfold fire. rewrite dispatch_without_deps by reflexivity.
  destruct w as [s m t ts h n l fl iss st]. cbn [mounted timers] in *. subst m ts.
  unfold exec_all, run_callback, saveToFirestore. cbn.
  rewrite Nat.eqb_refl. reflexivity.
Qed.

(** X18: edits that are a full quiet period apart are not coalesced and not
    compared: each is written, in order, also when the second content is the
    one that was just written. *)
Theorem separate_quiet_periods_write_twice
    (w : World) (c1 c2 : jsstring) (d1 d2 : N) :
  ready w = true ->
  timers_owned w = true ->
  (quiet_period <= d1)%N ->
  (quiet_period <= d2)%N ->
  map request (issued (run w [EditorChange c1; Tick d1; EditorChange c2; Tick d2]))
  = map request (issued w)
    ++ [commit_request (react w) (VStr c1); commit_request (react w) (VStr c2)].
Proof.
  intros R O H1 H2. destruct (ready_parts w R) as (M & I & S).
  pose proof (edit_arms w c1 R O) as A.
  destruct (armed_fires w _ c1 d1 A H1) as (Hi1 & Ht1).
  destruct A as (R1 & I1 & _ & id & r & Ht & Hh & E1 & E2 & E3 & E4 & E5 & E6).
  destruct (ready_parts _ R1) as (M1 & In1 & S1).
  set (w1 := step w (EditorChange c1)) in *.
  pose proof (due_timer_world w1 _ d1 M1 Ht) as W2.
  cbn [deadline] in W2. specialize (W2 ltac:(unfold quiet_period in *; lia)).
  set (w2 := step w1 (Tick d1)) in *.
  assert (R2 : ready w2 = true).
  { apply ready_intro; rewrite W2; [reflexivity | exact In1 | exact S1]. }
  assert (O2 : timers_owned w2 = true) by (rewrite W2; reflexivity).
  destruct (armed_fires w2 _ c2 d2 (edit_arms w2 c2 R2 O2) H2) as (Hi2 & _).
  change (run w [EditorChange c1; Tick d1; EditorChange c2; Tick d2])
    with (step (step w2 (EditorChange c2)) (Tick d2)).
  rewrite Hi2, Hi1, <- app_assoc. f_equal. cbn [app]. f_equal. f_equal.
  rewrite W2. unfold commit_request. cbn [react db userId snippetId update].
  now rewrite E4, E5, E6.
Qed.

(** ** Switching to a room that has no document *)

(** X19: the buffer is carried over a change of room.  When
    [handleRoomChange] accepts a room other than the current one and the
    document of that room turns out to be absent, the content of the buffer
    at the time of the switch is written to the new room as its first
    content. *)
Theorem room_switch_seeds_absent_room (w : World) (value : jsstring) :
  ready w = true ->
  room_id_ok (trim value) = true ->
  trim value <> snippetId (react w) ->
  code (react (step w (RoomInputBlur value))) = code (react w)
  /\ map request (issued (run w [RoomInputBlur value; Snapshot None]))
     = map request (issued w)
       ++ [(getSnippetDocRef (db (react w)) (trim value),
            payload (code (react w)) (userId (react w)), true)].
Proof.
  intros R H Hne. destruct (ready_parts w R) as (M & I & S).
  assert (B : step w (RoomInputBlur value) = step w (RoomInputChange (trim value))).
  { unfold step. destruct (interactive w); [|reflexivity].
    unfold handleRoomChange. now rewrite H. }
  change (run w [RoomInputBlur value; Snapshot None])
    with (step (step w (RoomInputBlur value)) (Snapshot None)).
  rewrite B, (room_change_world w (trim value) R Hne).
  split; [reflexivity|].
  match goal with
  | |- context [step ?x (Snapshot None)] =>
      destruct (absent_snapshot_commit x (update (setSnippetId (trim value)) (react w)))
        as [Hi _]; [reflexivity | exact S | rewrite Hi]
  end.
  rewrite map_app. reflexivity.
Qed.

End App.

(** ** Concrete runs

    The host table is [basic_toUpperCase], [__app_id] is undefined, the user
    is ["user-0001"]. *)

(** C2, the component at the failing input.  First run: the listener was
    installed while [isSaving] was false; an edit is committed and, while its
    write is pending ([isSaving] is true), a notification with a peer's
    content arrives: the buffer is overwritten.  Second run: the room is
    switched while that write is pending, so the new listener holds
    [isSaving = true]; after the write has settled and [isSaving] is false
    again, no notification with an existing document changes anything. *)
Theorem snapshot_guard_reads_stale_isSaving :
  let w := run basic_toUpperCase None (session basic_toUpperCase None (js "user-0001"))
               [EditorChange (js "abc"); Tick 1000] in
  let peer := remote_doc (js "from-peer") (js "user-0002") 7 in
  (isSaving (react w) = true
   /\ code (react w) = VStr (js "abc")
   /\ code (react (step basic_toUpperCase None w (Snapshot (Some peer))))
      = VStr (js "from-peer"))
  /\ let w' := run basic_toUpperCase None w [RoomInputChange (js "room-b"); Settle 0 true] in
     isSaving (react w') = false
     /\ code (react w') = VStr (js "abc")
     /\ forall data, step basic_toUpperCase None w' (Snapshot (Some data)) = w'.
Proof.
  split.
  - vm_compute. repeat split.
  - split; [vm_compute; reflexivity|]. split; [vm_compute; reflexivity|].
    intros data. eapply snapshot_guard_shut; vm_compute; reflexivity.
Qed.

(** C3, the component at the failing input: the user types ["X"] after the
    listener was installed and before its first notification; the
    notification reports the document absent.  The commit carries the code of
    the render that installed the listener, not the buffer, and the buffer is
    set back to it. *)
Theorem absent_snapshot_commits_captured_code :
  let w := run basic_toUpperCase None (session basic_toUpperCase None (js "user-0001"))
               [EditorChange (js "X")] in
  code (react w) = VStr (js "X")
  /\ map (fun p => w_data p !! "content")
         (issued (step basic_toUpperCase None w (Snapshot None)))
     = [Some (VStr default_code)]
  /\ code (react (step basic_toUpperCase None w (Snapshot None))) = VStr default_code
  /\ VStr default_code <> VStr (js "X").
Proof.
  vm_compute. repeat split. discriminate.
Qed.


(** *** The theorems at concrete inputs *)

(** C10 at the initial render, where [db] is [null]. *)
Lemma handleSaveCode_unauthenticated_noop_witness :
  db initial_state = None
  /\ dispatch (handleSaveCode None initial_state (VStr (js "x")) true) initial_world
     = initial_world.
Proof.
  split; [reflexivity|].
  apply (handleSaveCode_unauthenticated_noop None initial_world initial_state
           (VStr (js "x")) true).
  left. reflexivity.
Defined.

(** C9 for a document whose content is the empty string. *)
Lemma snapshot_without_content_ignored_witness :
  remote_doc [] (js "user-0002") 3 !! "content" = Some (VStr [])
  /\ code (react (step basic_toUpperCase None
                    (session basic_toUpperCase None (js "user-0001"))
                    (Snapshot (Some (remote_doc [] (js "user-0002") 3)))))
     = code (react (session basic_toUpperCase None (js "user-0001"))).
Proof.
  split; [reflexivity|].
  apply (snapshot_without_content_ignored basic_toUpperCase None
           (session basic_toUpperCase None (js "user-0001"))
           (remote_doc [] (js "user-0002") 3)).
  right. reflexivity.
Defined.

(** C6 for the first edit of a session. *)
Lemma local_edit_optimistic_echo_witness :
  ready (session basic_toUpperCase None (js "user-0001")) = true
  /\ code (react (step basic_toUpperCase None
                    (session basic_toUpperCase None (js "user-0001"))
                    (EditorChange (js "hello"))))
     = VStr (js "hello").
Proof.
  assert (R : ready (session basic_toUpperCase None (js "user-0001")) = true)
    by (vm_compute; reflexivity).
  split; [exact R|].
  exact (proj1 (local_edit_optimistic_echo basic_toUpperCase None
                  (session basic_toUpperCase None (js "user-0001")) (js "hello") R)).
Defined.

(** C1 for the scenario of the specification: ["x"], then ["xy"] 200 later,
    then a full quiet period. *)
Lemma coalescing_law_witness :
  map request
    (issued (step basic_toUpperCase None
               (run basic_toUpperCase None
                    (session basic_toUpperCase None (js "user-0001"))
                    (burst (js "x") [(200%N, js "xy")]))
               (Tick 1000)))
  = map request (issued (session basic_toUpperCase None (js "user-0001")))
    ++ [commit_request None (react (session basic_toUpperCase None (js "user-0001")))
          (VStr (last_edit (js "x") [(200%N, js "xy")]))].
Proof.
  apply (coalescing_law basic_toUpperCase None
           (session basic_toUpperCase None (js "user-0001"))
           (js "x") [(200%N, js "xy")]).
  - vm_compute. reflexivity.
  - vm_compute. reflexivity.
  - constructor; [vm_compute; reflexivity | constructor].
  - vm_compute. discriminate.
Defined.

(** C4 for the commit of ["abc"] and its rejection. *)
Lemma commit_in_flight_flag_witness :
  isSaving (react (exec_all
                     (saveToFirestore None
                        (react (session basic_toUpperCase None (js "user-0001")))
                        (VStr (js "abc")))
                     (session basic_toUpperCase None (js "user-0001")))) = true
  /\ isSaving (react (step basic_toUpperCase None
                        (run basic_toUpperCase None
                             (session basic_toUpperCase None (js "user-0001"))
                             [EditorChange (js "abc"); Tick 1000])
                        (Settle 0 false))) = false.
Proof.
  split.
  - apply (commit_in_flight_flag basic_toUpperCase None
             (session basic_toUpperCase None (js "user-0001"))
             (react (session basic_toUpperCase None (js "user-0001")))
             (VStr (js "abc"))).
    vm_compute. reflexivity.
  - eapply (commit_in_flight_flag basic_toUpperCase None
              (run basic_toUpperCase None
                   (session basic_toUpperCase None (js "user-0001"))
                   [EditorChange (js "abc"); Tick 1000])
              initial_state VNull).
    + vm_compute. reflexivity.
    + vm_compute. reflexivity.
Defined.

Lemma basic_toUpperCase_ascii : ascii_table basic_toUpperCase.
Proof. intros c _. reflexivity. Defined.

(** C5 for the scenario of the specification, ["../etc"], and for a
    candidate with surrounding blanks. *)
Lemma room_validation_witness :
  interactive (session basic_toUpperCase None (js "user-0001")) = true
  /\ snippetId (react (step basic_toUpperCase None
                         (session basic_toUpperCase None (js "user-0001"))
                         (RoomInputBlur (js "../etc"))))
     = snippetId (react (session basic_toUpperCase None (js "user-0001")))
  /\ snippetId (react (step basic_toUpperCase None
                         (session basic_toUpperCase None (js "user-0001"))
                         (RoomInputBlur (js "  My-Room-1 "))))
     = js "My-Room-1".
Proof.
  split; [vm_compute; reflexivity|]. split.
  - apply (room_validation basic_toUpperCase None
             (session basic_toUpperCase None (js "user-0001")) (js "../etc")
             basic_toUpperCase_ascii).
    + vm_compute. reflexivity.
    + intros (_ & _ & F).
      assert (E : trim (js "../etc") = [46; 46; 47; 101; 116; 99]%N)
        by (vm_compute; reflexivity).
      rewrite E in F. apply Forall_cons_1 in F as [F _].
      unfold room_char in F. lia.
  - apply (room_validation basic_toUpperCase None
             (session basic_toUpperCase None (js "user-0001")) (js "  My-Room-1 ")
             basic_toUpperCase_ascii).
    + vm_compute. reflexivity.
    + apply (room_id_ok_valid basic_toUpperCase basic_toUpperCase_ascii).
      vm_compute. reflexivity.
Defined.



(** *** The further properties at concrete inputs *)

(** X1 for an edit in an established session. *)
Lemma subscription_outlives_renders_witness :
  listener (step basic_toUpperCase None
              (session basic_toUpperCase None (js "user-0001"))
              (EditorChange (js "x")))
  = listener (session basic_toUpperCase None (js "user-0001")).
Proof.
  exact (proj1 (subscription_outlives_renders basic_toUpperCase None
                  (session basic_toUpperCase None (js "user-0001"))
                  (EditorChange (js "x")) eq_refl)).
Defined.

(** X3 for a change of room. *)
Lemma writes_only_from_timer_or_absence_witness :
  issued (step basic_toUpperCase None
            (session basic_toUpperCase None (js "user-0001"))
            (RoomInputChange (js "room-b")))
  = issued (session basic_toUpperCase None (js "user-0001")).
Proof.
  exact (writes_only_from_timer_or_absence basic_toUpperCase None
           (session basic_toUpperCase None (js "user-0001"))
           (RoomInputChange (js "room-b")) eq_refl).
Defined.

(** X5 for a session that is signed out and then receives an error. *)
Lemma main_view_stays_witness :
  isInitialized
    (react (run basic_toUpperCase None
              (session basic_toUpperCase None (js "user-0001"))
              [AuthStateChanged None; SnapshotError; Tick 5000])) = true.
Proof.
  apply (main_view_stays basic_toUpperCase None
           (session basic_toUpperCase None (js "user-0001"))
           [AuthStateChanged None; SnapshotError; Tick 5000]).
  vm_compute. reflexivity.
Defined.

(** X6 for a failed initialisation followed by attempts to use the
    component. *)
Lemma nothing_before_sign_in_witness :
  issued (run basic_toUpperCase None initial_world
            [Init false; AuthStateChanged None; EditorChange (js "x");
             RoomInputBlur (js "room-b"); Snapshot None; Tick 5000]) = [].
Proof.
  apply (nothing_before_sign_in basic_toUpperCase None
           [Init false; AuthStateChanged None; EditorChange (js "x");
            RoomInputBlur (js "room-b"); Snapshot None; Tick 5000]).
  reflexivity.
Defined.

(** X8 for an established session. *)
Lemma sign_out_silences_editor_witness :
  step basic_toUpperCase None
    (step basic_toUpperCase None
       (session basic_toUpperCase None (js "user-0001")) (AuthStateChanged None))
    (EditorChange (js "typed after sign-out"))
  = step basic_toUpperCase None
      (session basic_toUpperCase None (js "user-0001")) (AuthStateChanged None).
Proof.
  apply (sign_out_silences_editor basic_toUpperCase None
           (session basic_toUpperCase None (js "user-0001"))
           (js "typed after sign-out")).
  vm_compute. reflexivity.
Defined.

(** X9 for two edits committed a quiet period apart, neither settled. *)
Lemma flag_lowered_while_write_pending_witness :
  isSaving
    (react (step basic_toUpperCase None
              (run basic_toUpperCase None
                   (session basic_toUpperCase None (js "user-0001"))
                   [EditorChange (js "a"); Tick 1000; EditorChange (js "b"); Tick 1000])
              (Settle 0 true))) = false
  /\ inflight
       (step basic_toUpperCase None
          (run basic_toUpperCase None
               (session basic_toUpperCase None (js "user-0001"))
               [EditorChange (js "a"); Tick 1000; EditorChange (js "b"); Tick 1000])
          (Settle 0 true)) <> [].
Proof.
  eapply (flag_lowered_while_write_pending basic_toUpperCase None
            (run basic_toUpperCase None
                 (session basic_toUpperCase None (js "user-0001"))
                 [EditorChange (js "a"); Tick 1000; EditorChange (js "b"); Tick 1000])
            0 _ true).
  - vm_compute. reflexivity.
  - vm_compute. reflexivity.
  - vm_compute. lia.
Defined.

(** X10 for the value ["bad room!"]. *)
Lemma typed_room_is_not_validated_witness :
  snippetId
    (react (run basic_toUpperCase None
              (session basic_toUpperCase None (js "user-0001"))
              [RoomInputChange (js "bad room!"); RoomInputBlur (js "bad room!")]))
  = js "bad room!".
Proof.
  apply (typed_room_is_not_validated basic_toUpperCase None
           (session basic_toUpperCase None (js "user-0001")) (js "bad room!")).
  - vm_compute. reflexivity.
  - vm_compute. discriminate.
  - vm_compute. reflexivity.
  - vm_compute. reflexivity.
Defined.

(** X11 for the current room typed with blanks around it. *)
Lemma blur_on_current_room_is_noop_witness :
  step basic_toUpperCase None
    (session basic_toUpperCase None (js "user-0001"))
    (RoomInputBlur (js " welcome-snippet "))
  = session basic_toUpperCase None (js "user-0001").
Proof.
  apply (blur_on_current_room_is_noop basic_toUpperCase None
           (session basic_toUpperCase None (js "user-0001"))
           (js " welcome-snippet ") basic_toUpperCase_ascii).
  - vm_compute. reflexivity.
  - vm_compute. reflexivity.
Defined.

(** X12 for the slash of ["../etc"]. *)
Lemma path_characters_rejected_witness :
  handleRoomChange basic_toUpperCase (js "../etc")
  = [setStatus (js "Room ID must be alphanumeric/hyphenated and non-empty.")].
Proof.
  apply (path_characters_rejected basic_toUpperCase (js "../etc") 47
           basic_toUpperCase_ascii).
  - assert (E : trim (js "../etc") = [46; 46; 47; 101; 116; 99]%N)
      by (vm_compute; reflexivity).
    rewrite E. right. right. left. reflexivity.
  - right. left. reflexivity.
Defined.

(** X13 for the first notification of a session. *)
Lemma room_creation_targets_live_room_witness :
  timers (step basic_toUpperCase None
            (run basic_toUpperCase None initial_world
                 [Init true; AuthStateChanged (Some (js "user-0001"))])
            (Snapshot None))
  = timers (run basic_toUpperCase None initial_world
                [Init true; AuthStateChanged (Some (js "user-0001"))]).
Proof.
  assert (L : listener (run basic_toUpperCase None initial_world
                          [Init true; AuthStateChanged (Some (js "user-0001"))])
              = Some (fold_left (fun s c => update c s)
                        (init_effect true ++ onAuthStateChanged_cb (Some (js "user-0001")))
                        initial_state))
    by (vm_compute; reflexivity).
  exact (proj1 (proj2 (room_creation_targets_live_room basic_toUpperCase None
                         [Init true; AuthStateChanged (Some (js "user-0001"))] _ L))).
Defined.

(** X14 for a peer's update that arrives after the edit ["abc"]. *)
Lemma pending_edit_overwrites_remote_update_witness :
  code (react (run basic_toUpperCase None
                 (session basic_toUpperCase None (js "user-0001"))
                 [EditorChange (js "abc");
                  Snapshot (Some (remote_doc (js "from-peer") (js "user-0002") 7));
                  Tick 1000]))
  = content_of (remote_doc (js "from-peer") (js "user-0002") 7).
Proof.
  eapply (pending_edit_overwrites_remote_update basic_toUpperCase None
            (session basic_toUpperCase None (js "user-0001")) _
            (remote_doc (js "from-peer") (js "user-0002") 7) (js "abc") 1000).
  - vm_compute. reflexivity.
  - vm_compute. reflexivity.
  - vm_compute. reflexivity.
  - vm_compute. reflexivity.
  - vm_compute. reflexivity.
  - vm_compute. discriminate.
Defined.

(** X15 for an edit, a switch to ["room-b"] 200 later and an edit there. *)
Lemma edit_lost_on_room_switch_witness :
  timers (run basic_toUpperCase None
            (session basic_toUpperCase None (js "user-0001"))
            [EditorChange (js "for room a"); Tick 200; RoomInputChange (js "room-b");
             EditorChange (js "for room b"); Tick 1000]) = [].
Proof.
  apply (edit_lost_on_room_switch basic_toUpperCase None
           (session basic_toUpperCase None (js "user-0001"))
           (js "for room a") (js "for room b") (js "room-b") 200 1000).
  - vm_compute. reflexivity.
  - vm_compute. reflexivity.
  - vm_compute. discriminate.
  - vm_compute. reflexivity.
  - vm_compute. discriminate.
Defined.

(** X16 for an edit followed by a sign-out. *)
Lemma pending_edit_survives_sign_out_witness :
  userId (react (run basic_toUpperCase None
                   (session basic_toUpperCase None (js "user-0001"))
                   [EditorChange (js "abc"); AuthStateChanged None])) = None.
Proof.
  apply (pending_edit_survives_sign_out basic_toUpperCase None
           (session basic_toUpperCase None (js "user-0001")) (js "abc") 1000).
  - vm_compute. reflexivity.
  - vm_compute. reflexivity.
  - vm_compute. discriminate.
Defined.

(** X17 for the first sign-in after the initialisation. *)
Lemma sign_in_subscribes_witness :
  status (react (step basic_toUpperCase None
                   (run basic_toUpperCase None initial_world [Init true])
                   (AuthStateChanged (Some (js "user-0001")))))
  = js "Subscribing to room: "
    ++ snippetId (react (run basic_toUpperCase None initial_world [Init true])).
Proof.
  apply (sign_in_subscribes basic_toUpperCase None
           (run basic_toUpperCase None initial_world [Init true])
           (js "user-0001") FirestoreDb).
  - vm_compute. reflexivity.
  - vm_compute. reflexivity.
  - vm_compute. discriminate.
  - vm_compute. discriminate.
Defined.

(** X18 for the same content typed twice, a quiet period apart. *)
Lemma separate_quiet_periods_write_twice_witness :
  map request
    (issued (run basic_toUpperCase None
               (session basic_toUpperCase None (js "user-0001"))
               [EditorChange (js "x"); Tick 1000; EditorChange (js "x"); Tick 1000]))
  = map request (issued (session basic_toUpperCase None (js "user-0001")))
    ++ [commit_request None (react (session basic_toUpperCase None (js "user-0001")))
          (VStr (js "x"));
        commit_request None (react (session basic_toUpperCase None (js "user-0001")))
          (VStr (js "x"))].
Proof.
  apply (separate_quiet_periods_write_twice basic_toUpperCase None
           (session basic_toUpperCase None (js "user-0001"))
           (js "x") (js "x") 1000 1000).
  - vm_compute. reflexivity.
  - vm_compute. reflexivity.
  - vm_compute. discriminate.
  - vm_compute. discriminate.
Defined.

(** X19 for a switch to ["room-b"], which has no document. *)
Lemma room_switch_seeds_absent_room_witness :
  code (react (step basic_toUpperCase None
                 (session basic_toUpperCase None (js "user-0001"))
                 (RoomInputBlur (js " room-b "))))
  = code (react (session basic_toUpperCase None (js "user-0001"))).
Proof.
  apply (room_switch_seeds_absent_room basic_toUpperCase None
           (session basic_toUpperCase None (js "user-0001")) (js " room-b ")).
  - vm_compute. reflexivity.
  - vm_compute. reflexivity.
  - vm_compute. discriminate.
Defined.
